(** * Mergington High School activities API ([src/app.py])

    A shallow embedding of the request handlers of [src/app.py] and the
    properties of its two process-wide registries: the session registry
    [sessions] (token -> username) and the activity registry [activities]
    (activity name -> record).

    Python dictionaries are [gmap]s, the participants list is a [list string]
    (order and multiplicity are those of the Python list), [Optional[str]] is
    [option string], and a handler is a computation in a state-and-exception
    monad over the two registries: [raise HTTPException(...)] aborts the
    handler and leaves the registries as they were at that point. *)

From Stdlib Require Import ZArith.
From stdpp Require Import gmap strings list fin_maps.

Open Scope string_scope.

(** ** Data model *)

(** One value of the [activities] dictionary. *)
Record Activity := mkActivity {
  description : string;
  schedule : string;
  max_participants : Z;
  participants : list string
}.

(** One entry of [teachers_data["teachers"]]. *)
Record Teacher := mkTeacher {
  username : string;
  password_hash : string
}.

(** The two module-level dictionaries. *)
Record State := mkState {
  sessions : gmap string string;
  activities : gmap string Activity
}.

(** [HTTPException(status_code=..., detail=...)]. *)
Record HTTPException := mkHTTPException {
  status_code : Z;
  detail : string
}.

(** A cookie instruction attached to a response. *)
Inductive CookieOp :=
| set_cookie (key value : string) (httponly : bool) (max_age : Z) (samesite : string)
| delete_cookie (key : string).

(** The JSON payload of a successful (status 200) response. *)
Inductive Content :=
| Message (message : string)
| LoggedIn (message user : string)
| AuthStatus (authenticated : bool) (user : option string)
| ActivityMap (listing : gmap string Activity).

Record Response := mkResponse {
  content : Content;
  cookies : list CookieOp
}.

(** A handler returning a plain dictionary. *)
Definition json (c : Content) : Response := mkResponse c [].

(** ** The handler monad *)

Definition M (A : Type) : Type := State → (HTTPException + A) * State.

#[export] Instance M_ret : MRet M := λ A a s, (inr a, s).

#[export] Instance M_bind : MBind M := λ A B f m s,
  match m s with
  | (inl e, s') => (inl e, s')
  | (inr a, s') => f a s'
  end.

Definition raise {A : Type} (e : HTTPException) : M A := λ s, (inl e, s).

Definition read_sessions : M (gmap string string) := λ s, (inr (sessions s), s).

Definition write_sessions (m : gmap string string) : M () :=
  λ s, (inr (), mkState m (activities s)).

Definition read_activities : M (gmap string Activity) := λ s, (inr (activities s), s).

Definition write_activities (m : gmap string Activity) : M () :=
  λ s, (inr (), mkState (sessions s) m).

(** ** Python primitives *)

(** Truth value of a [str]: the empty string is falsy. *)
Definition truthy (s : string) : bool := negb (String.eqb s "").

(** [l.append(x)]. *)
Definition append (l : list string) (x : string) : list string := l ++ [x].

(** [l.remove(x)]: drops the first element equal to [x]; [None] stands for
    the [ValueError] raised when there is none. *)
Fixpoint remove (l : list string) (x : string) : option (list string) :=
  match l with
  | [] => None
  | y :: l' =>
      if decide (y = x) then Some l'
      else match remove l' x with
           | Some r => Some (y :: r)
           | None => None
           end
  end.

(** [activity["participants"] = l], the other keys untouched. *)
Definition with_participants (a : Activity) (l : list string) : Activity :=
  mkActivity (description a) (schedule a) (max_participants a) l.

(** ** The seeded registries *)

Definition seed_activities : list (string * Activity) :=
  [ ("Chess Club",
     mkActivity "Learn strategies and compete in chess tournaments"
       "Fridays, 3:30 PM - 5:00 PM" 12
       ["michael@mergington.edu"; "daniel@mergington.edu"]);
    ("Programming Class",
     mkActivity "Learn programming fundamentals and build software projects"
       "Tuesdays and Thursdays, 3:30 PM - 4:30 PM" 20
       ["emma@mergington.edu"; "sophia@mergington.edu"]);
    ("Gym Class",
     mkActivity "Physical education and sports activities"
       "Mondays, Wednesdays, Fridays, 2:00 PM - 3:00 PM" 30
       ["john@mergington.edu"; "olivia@mergington.edu"]);
    ("Soccer Team",
     mkActivity "Join the school soccer team and compete in matches"
       "Tuesdays and Thursdays, 4:00 PM - 5:30 PM" 22
       ["liam@mergington.edu"; "noah@mergington.edu"]);
    ("Basketball Team",
     mkActivity "Practice and play basketball with the school team"
       "Wednesdays and Fridays, 3:30 PM - 5:00 PM" 15
       ["ava@mergington.edu"; "mia@mergington.edu"]);
    ("Art Club",
     mkActivity "Explore your creativity through painting and drawing"
       "Thursdays, 3:30 PM - 5:00 PM" 15
       ["amelia@mergington.edu"; "harper@mergington.edu"]);
    ("Drama Club",
     mkActivity "Act, direct, and produce plays and performances"
       "Mondays and Wednesdays, 4:00 PM - 5:30 PM" 20
       ["ella@mergington.edu"; "scarlett@mergington.edu"]);
    ("Math Club",
     mkActivity "Solve challenging problems and participate in math competitions"
       "Tuesdays, 3:30 PM - 4:30 PM" 10
       ["james@mergington.edu"; "benjamin@mergington.edu"]);
    ("Debate Team",
     mkActivity "Develop public speaking and argumentation skills"
       "Fridays, 4:00 PM - 5:30 PM" 12
       ["charlotte@mergington.edu"; "henry@mergington.edu"]) ].

(** The state of the process right after the module is loaded. *)
Definition initial_state : State :=
  mkState ∅ (list_to_map seed_activities).

(** ** Authentication helpers *)

(** [get_current_user]: the user of the session cookie, if any. *)
Definition get_current_user (session_id : option string) : M (option string) :=
  sess ← read_sessions;
  match session_id with
  | Some sid => if truthy sid then mret (sess !! sid) else mret None
  | None => mret None
  end.

(** [require_auth]: as above, but a missing user is a 401. *)
Definition require_auth (session_id : option string) : M string :=
  user ← get_current_user session_id;
  match user with
  | Some u =>
      if truthy u then mret u
      else raise (mkHTTPException 401 "Authentication required")
  | None => raise (mkHTTPException 401 "Authentication required")
  end.

(** ** Handlers that only touch the session registry *)

Section Credentials.

(** The content of [teachers.json] and [bcrypt.checkpw] are not part of the
    module: both are parameters of [login]. [checkpw password hash] is
    [Some b] when the library returns [b], and [None] when it raises (a
    [ValueError] for a stored hash it cannot parse or a password it refuses). *)
Variable teachers_data : list Teacher.
Variable checkpw : string → string → option bool.

(** [login]. The third argument is the string drawn by
    [secrets.token_urlsafe(32)] for this call. The call of [checkpw] is not
    inside a [try]: when it raises, the framework answers 500 and the handler
    has written nothing. *)
Definition login (user password : string) (token : string) : M Response :=
  match find (λ t, bool_decide (username t = user)) teachers_data with
  | None => raise (mkHTTPException 401 "Invalid credentials")
  | Some teacher =>
      match checkpw password (password_hash teacher) with
      | None => raise (mkHTTPException 500 "Internal Server Error")
      | Some verified =>
          if negb verified
          then raise (mkHTTPException 401 "Invalid credentials")
          else
            sess ← read_sessions;
            write_sessions (<[token := user]> sess);;
            mret (mkResponse (LoggedIn "Logged in successfully" user)
                    [set_cookie "session_id" token true 86400 "lax"])
      end
  end.

End Credentials.

(** [logout]. *)
Definition logout (session_id : option string) : M Response :=
  sess ← read_sessions;
  match session_id with
  | Some sid =>
      if truthy sid && bool_decide (is_Some (sess !! sid))
      then write_sessions (delete sid sess)
      else mret ()
  | None => mret ()
  end;;
  mret (mkResponse (Message "Logged out successfully") [delete_cookie "session_id"]).

(** [auth_status]. *)
Definition auth_status (session_id : option string) : M Response :=
  user ← get_current_user session_id;
  match user with
  | Some u =>
      if truthy u then mret (json (AuthStatus true (Some u)))
      else mret (json (AuthStatus false None))
  | None => mret (json (AuthStatus false None))
  end.

(** ** Handlers of the activity registry *)

(** [get_activities]: no dependency on [require_auth]. *)
Definition get_activities : M Response :=
  acts ← read_activities;
  mret (json (ActivityMap acts)).

(** [signup_for_activity]; [Depends(require_auth)] runs before the body. *)
Definition signup_for_activity (activity_name email : string)
    (session_id : option string) : M Response :=
  current_user ← require_auth session_id;
  acts ← read_activities;
  match acts !! activity_name with
  | None => raise (mkHTTPException 404 "Activity not found")
  | Some activity =>
      if bool_decide (email ∈ participants activity)
      then raise (mkHTTPException 400 "Student is already signed up")
      else
        write_activities
          (<[activity_name :=
               with_participants activity (append (participants activity) email)]> acts);;
        mret (json (Message ("Signed up " +:+ email +:+ " for " +:+ activity_name)))
  end.

(** [unregister_from_activity]; [Depends(require_auth)] runs before the body.
    A [ValueError] escaping from [remove] would be answered 500 by the
    framework; the membership test before it rules that out. *)
Definition unregister_from_activity (activity_name email : string)
    (session_id : option string) : M Response :=
  current_user ← require_auth session_id;
  acts ← read_activities;
  match acts !! activity_name with
  | None => raise (mkHTTPException 404 "Activity not found")
  | Some activity =>
      if negb (bool_decide (email ∈ participants activity))
      then raise (mkHTTPException 400 "Student is not signed up for this activity")
      else
        match remove (participants activity) email with
        | Some l =>
            write_activities (<[activity_name := with_participants activity l]> acts);;
            mret (json (Message ("Unregistered " +:+ email +:+ " from " +:+ activity_name)))
        | None => raise (mkHTTPException 500 "Internal Server Error")
        end
  end.

(** ** The request dispatcher and the reachable states *)

Inductive Request :=
| POST_login (user password : string) (token : string)
| POST_logout
| GET_status
| GET_activities
| POST_signup (activity_name email : string)
| DELETE_unregister (activity_name email : string).

(** What [secrets.token_urlsafe(32)] can return: 32 random bytes in unpadded
    URL-safe base64, that is 43 characters. *)
Definition token_urlsafe_32 (token : string) : Prop := String.length token = 43%nat.

(** Requests the server can be handed: a login carries a drawn token. *)
Definition well_formed (req : Request) : Prop :=
  match req with
  | POST_login _ _ token => token_urlsafe_32 token
  | _ => True
  end.

Section Server.

Variable teachers_data : list Teacher.
Variable checkpw : string → string → option bool.

(** One request, routed to its handler with the [session_id] cookie. *)
Definition handle (req : Request) (session_id : option string) : M Response :=
  match req with
  | POST_login user password token => login teachers_data checkpw user password token
  | POST_logout => logout session_id
  | GET_status => auth_status session_id
  | GET_activities => get_activities
  | POST_signup activity_name email => signup_for_activity activity_name email session_id
  | DELETE_unregister activity_name email =>
      unregister_from_activity activity_name email session_id
  end.

(** The state after serving a sequence of requests, each with the cookie
    it was sent with, in order. *)
Fixpoint run (trace : list (Request * option string)) (s : State) : State :=
  match trace with
  | [] => s
  | (req, session_id) :: rest => run rest (handle req session_id s).2
  end.

End Server.

(** ** Vocabulary of the specification *)

(** The cookie names a session of the registry: a non-empty token mapped to a
    non-empty username. *)
Definition valid_session (sess : gmap string string) (session_id : option string) : Prop :=
  ∃ sid u, session_id = Some sid ∧ sid ≠ "" ∧ sess !! sid = Some u ∧ u ≠ "".

(** The cookie is absent, or its token is not a key of the registry. *)
Definition no_session (sess : gmap string string) (session_id : option string) : Prop :=
  session_id = None ∨ ∃ sid, session_id = Some sid ∧ sess !! sid = None.

(** Every login of the trace carries a token [secrets.token_urlsafe(32)] can draw. *)
Definition well_formed_trace (trace : list (Request * option string)) : Prop :=
  Forall (λ ev, well_formed ev.1) trace.

(** [token] was handed out by some login of the trace. *)
Definition issued (token : string) (trace : list (Request * option string)) : Prop :=
  ∃ user password session_id, (POST_login user password token, session_id) ∈ trace.

(** No roster lists an email twice. *)
Definition no_duplicates (s : State) : Prop :=
  ∀ name a, activities s !! name = Some a → NoDup (participants a).

(** A route is protected when every request without a valid session is
    answered 401 and changes nothing. *)
Definition requires_session (route : option string → M Response) : Prop :=
  ∀ s session_id, ¬ valid_session (sessions s) session_id →
    ∃ e, route session_id s = (inl e, s) ∧ status_code e = 401%Z.


(** [t] is the first entry of the credential store with this username. *)
Definition stored_teacher (teachers_data : list Teacher) (user : string) (t : Teacher) : Prop :=
  ∃ before after : list Teacher,
    teachers_data = (before ++ t :: after)%list ∧ username t = user ∧
    ∀ t', t' ∈ before → username t' ≠ user.

(** ** Sample data for the worked instances *)

Definition sample_teachers : list Teacher :=
  [ mkTeacher "mrodriguez" "$2b$12$abcdefghijklmnopqrstuuJ8Yx0g1Q5b7V3nK2mW9pR4sT6vX8zA1" ].

(** A stand-in for [bcrypt.checkpw] that accepts one password. *)
Definition sample_checkpw (password hash : string) : option bool :=
  Some (String.eqb password "art123").

Definition sample_token : string := "Zk3vY0aQ9mB-7tLr_2XcPq8HnE5sUdWf1GjI4oKyT6M".

Definition sample_cookie : option string := Some sample_token.

(** A teacher has logged in. *)
Definition logged_in : State :=
  run sample_teachers sample_checkpw
    [ (POST_login "mrodriguez" "art123" sample_token, None) ] initial_state.

(** Eight more signups bring the Math Club to its [max_participants] of 10. *)
Definition math_club_full : State :=
  run sample_teachers sample_checkpw
    [ (POST_signup "Math Club" "s1@mergington.edu", sample_cookie);
      (POST_signup "Math Club" "s2@mergington.edu", sample_cookie);
      (POST_signup "Math Club" "s3@mergington.edu", sample_cookie);
      (POST_signup "Math Club" "s4@mergington.edu", sample_cookie);
      (POST_signup "Math Club" "s5@mergington.edu", sample_cookie);
      (POST_signup "Math Club" "s6@mergington.edu", sample_cookie);
      (POST_signup "Math Club" "s7@mergington.edu", sample_cookie);
      (POST_signup "Math Club" "s8@mergington.edu", sample_cookie) ] logged_in.

(** ** Further vocabulary *)

(** The part of the activity registry that no handler assigns: the keys with
    their description, schedule and capacity. *)
Definition catalogue (s : State) : gmap string (string * string * Z) :=
  (λ a, (description a, schedule a, max_participants a)) <$> activities s.

(** The activity a roster request is about. *)
Definition roster_activity (req : Request) : option string :=
  match req with
  | POST_signup activity_name _ | DELETE_unregister activity_name _ => Some activity_name
  | _ => None
  end.

(** The credentials are those of an entry of the store: the first entry with
    the username verifies the password. *)
Definition valid_credentials (teachers_data : list Teacher)
    (checkpw : string → string → option bool) (user password : string) : Prop :=
  ∃ t, stored_teacher teachers_data user t
       ∧ checkpw password (password_hash t) = Some true.

(** No login of the trace presents valid credentials. *)
Definition logins_rejected (teachers_data : list Teacher)
    (checkpw : string → string → option bool) (trace : list (Request * option string)) : Prop :=
  ∀ user password token session_id,
    (POST_login user password token, session_id) ∈ trace →
    ¬ valid_credentials teachers_data checkpw user password.

(** ** Further sample data *)



Definition second_token : string := "p4Wn8sVt2Kq_0LxYb7ZrC-1dEoHfG5uJ3mNaI9wQ6Tc".

(** The same teacher holds two sessions, from two logins. *)
Definition two_sessions : State :=
  run sample_teachers sample_checkpw
    [ (POST_login "mrodriguez" "art123" second_token, None) ] logged_in.

(** * Properties *)

(** ** Python primitives *)

Lemma truthy_true (s : string) : truthy s = true ↔ s ≠ "".
Proof.
  unfold truthy. rewrite negb_true_iff.
  destruct (String.eqb_spec s ""); split; intros; congruence.
Qed.

Lemma truthy_false (s : string) : truthy s = false ↔ s = "".
Proof.
  unfold truthy. rewrite negb_false_iff. apply String.eqb_eq.
Qed.

(** [remove] fails exactly on lists without the element. *)
Lemma remove_None (l : list string) (x : string) : remove l x = None ↔ x ∉ l.
Proof.
  induction l as [|y l IH]; simpl.
  - split; [intros _; apply not_elem_of_nil | done].
  - rewrite not_elem_of_cons. destruct (decide (y = x)) as [->|Hne].
    + split; [done | intros [? _]; done].
    + destruct (remove l x) eqn:E.
      * split; [done |]. intros [_ Hx]. apply IH in Hx. done.
      * split; [| done]. intros _. split; [congruence | by apply IH].
Qed.

(** [remove] cuts out the first occurrence and keeps the rest in order. *)
Lemma remove_Some (l r : list string) (x : string) :
  remove l x = Some r ↔
  ∃ l1 l2 : list string, l = (l1 ++ x :: l2)%list ∧ (x ∉ l1) ∧ r = (l1 ++ l2)%list.
Proof.
  revert r. induction l as [|y l IH]; intros r; simpl.
  - split; [done |]. intros (l1 & l2 & E & _). by destruct l1.
  - destruct (decide (y = x)) as [->|Hne].
    + split.
      * intros [= <-]. exists [], l. split_and!; [done | apply not_elem_of_nil | done].
      * intros ([|z l1] & l2 & E & Hx & ->); simplify_eq/=; [done |].
        exfalso. apply Hx. left.
    + destruct (remove l x) as [r'|] eqn:E.
      * split.
        -- intros [= <-]. destruct (proj1 (IH r') eq_refl) as (l1 & l2 & -> & Hx & ->).
           exists (y :: l1), l2. split_and!; [done | | done].
           rewrite not_elem_of_cons. split; [congruence | done].
        -- intros ([|z l1] & l2 & El & Hx & ->); simplify_eq/=.
           f_equal. f_equal. apply not_elem_of_cons in Hx as [_ Hx].
           assert (Some r' = Some (l1 ++ l2)%list) as [= ->]; [| done].
           apply IH. eauto.
      * split; [done |]. intros (l1 & l2 & El & _). apply remove_None in E.
        assert (x ∈ y :: l) as Hin by (rewrite El, elem_of_app; right; left).
        apply elem_of_cons in Hin as [?|?]; [congruence | done].
Qed.

Lemma remove_elem_of (l : list string) (x : string) :
  x ∈ l → ∃ r, remove l x = Some r.
Proof.
  intros Hx. destruct (remove l x) eqn:E; [eauto |].
  apply remove_None in E. done.
Qed.

(** Removing an element that was appended to a list without it is the
    inverse of the append. *)
Lemma remove_append (l : list string) (x : string) :
  x ∉ l → remove (append l x) x = Some l.
Proof.
  intros Hx. apply remove_Some. exists l, []. by rewrite app_nil_r.
Qed.

Lemma NoDup_append (l : list string) (x : string) :
  NoDup l → x ∉ l → NoDup (append l x).
Proof.
  intros Hl Hx. unfold append. apply NoDup_app. split_and!; [done | | apply NoDup_singleton].
  intros y Hy Hy'. apply list_elem_of_singleton in Hy' as ->. done.
Qed.

Lemma NoDup_remove (l r : list string) (x : string) :
  NoDup l → remove l x = Some r → NoDup r ∧ x ∉ r.
Proof.
  intros Hl (l1 & l2 & -> & Hx & ->)%remove_Some.
  apply NoDup_app in Hl as (H1 & H12 & H2). apply NoDup_cons in H2 as [Hx2 H2].
  split.
  - apply NoDup_app. split_and!; [done | | done].
    intros y Hy Hy2. apply (H12 y Hy). by right.
  - rewrite elem_of_app. intros [|]; done.
Qed.

Lemma with_participants_id (a : Activity) : with_participants a (participants a) = a.
Proof. by destruct a. Qed.

(** ** Session validation *)

(** Unfolds the monad of a handler applied to a state. *)
Ltac run_handler :=
  unfold mbind, M_bind, mret, M_ret, raise, read_sessions, write_sessions,
    read_activities, write_activities; simpl.

(** [get_current_user] is a read: it returns a value and keeps the state. *)
Lemma get_current_user_run (s : State) (session_id : option string) :
  get_current_user session_id s =
    (inr match session_id with
         | Some sid => if truthy sid then sessions s !! sid else None
         | None => None
         end, s).
Proof.
  unfold get_current_user. run_handler.
  destruct session_id as [sid|]; [destruct (truthy sid) |]; reflexivity.
Qed.

Lemma require_auth_valid (s : State) (session_id : option string) :
  valid_session (sessions s) session_id →
  ∃ u, require_auth session_id s = (inr u, s).
Proof.
  intros (sid & u & -> & Hsid & Hu & Hne). exists u.
  unfold require_auth. run_handler. rewrite get_current_user_run.
  apply truthy_true in Hsid, Hne. by rewrite Hsid, Hu, Hne.
Qed.

Lemma require_auth_invalid (s : State) (session_id : option string) :
  ¬ valid_session (sessions s) session_id →
  require_auth session_id s =
    (inl (mkHTTPException 401 "Authentication required"), s).
Proof.
  intros Hno. unfold require_auth. run_handler. rewrite get_current_user_run.
  destruct session_id as [sid|]; [| done].
  destruct (truthy sid) eqn:Hsid; [| done].
  destruct (sessions s !! sid) as [u|] eqn:Hu; [| done].
  destruct (truthy u) eqn:Hne; [| done].
  exfalso. apply Hno. exists sid, u. by rewrite <- !truthy_true.
Qed.

Lemma no_session_not_valid (sess : gmap string string) (session_id : option string) :
  no_session sess session_id → ¬ valid_session sess session_id.
Proof.
  intros [-> | (sid & -> & Hnone)] (sid' & u & Heq & _ & Hu & _); simplify_eq.
Qed.

(** ** The roster handlers, once authenticated *)

Lemma signup_for_activity_run (s : State) (session_id : option string)
    (activity_name email u : string) :
  require_auth session_id s = (inr u, s) →
  signup_for_activity activity_name email session_id s =
    match activities s !! activity_name with
    | None => (inl (mkHTTPException 404 "Activity not found"), s)
    | Some a =>
        if bool_decide (email ∈ participants a)
        then (inl (mkHTTPException 400 "Student is already signed up"), s)
        else (inr (json (Message ("Signed up " +:+ email +:+ " for " +:+ activity_name))),
              mkState (sessions s)
                (<[activity_name := with_participants a (append (participants a) email)]>
                   (activities s)))
    end.
Proof.
  intros Hauth. unfold signup_for_activity. run_handler. rewrite Hauth.
  destruct (activities s !! activity_name) as [a|]; [| done].
  by destruct (bool_decide (email ∈ participants a)).
Qed.

Lemma unregister_from_activity_run (s : State) (session_id : option string)
    (activity_name email u : string) :
  require_auth session_id s = (inr u, s) →
  unregister_from_activity activity_name email session_id s =
    match activities s !! activity_name with
    | None => (inl (mkHTTPException 404 "Activity not found"), s)
    | Some a =>
        match remove (participants a) email with
        | None => (inl (mkHTTPException 400 "Student is not signed up for this activity"), s)
        | Some l =>
            (inr (json (Message ("Unregistered " +:+ email +:+ " from " +:+ activity_name))),
             mkState (sessions s) (<[activity_name := with_participants a l]> (activities s)))
        end
    end.
Proof.
  intros Hauth. unfold unregister_from_activity. run_handler. rewrite Hauth.
  destruct (activities s !! activity_name) as [a|]; [| done].
  case_bool_decide as Hin; simpl.
  - by destruct (remove_elem_of _ _ Hin) as [l ->].
  - apply remove_None in Hin. by rewrite Hin.
Qed.

(** Without a valid session neither handler reaches its body. *)
Lemma roster_handlers_unauthenticated (s : State) (session_id : option string)
    (activity_name email : string) :
  ¬ valid_session (sessions s) session_id →
  signup_for_activity activity_name email session_id s =
    (inl (mkHTTPException 401 "Authentication required"), s) ∧
  unregister_from_activity activity_name email session_id s =
    (inl (mkHTTPException 401 "Authentication required"), s).
Proof.
  intros Hno. unfold signup_for_activity, unregister_from_activity. run_handler.
  by rewrite (require_auth_invalid _ _ Hno).
Qed.

(** Discharges [valid_session] for the cookie of the sample states. *)
Ltac sample_session :=
  exists sample_token, "mrodriguez";
  split_and!; [reflexivity | discriminate | reflexivity | discriminate].

(** ** Signup *)

(** C1. With a valid session, [signup_for_activity] answers 404 "Activity not
    found" when the name is not a key of the registry, else 400 "Student is
    already signed up" when the email is in the roster, and else succeeds and
    appends the email to that roster. [max_participants] is never consulted:
    the signup also succeeds on a roster that is at or above it, and the
    roster is then longer than [max_participants]. *)
Theorem signup_for_activity_spec (s : State) (session_id : option string)
    (activity_name email : string) :
  valid_session (sessions s) session_id →
  (activities s !! activity_name = None →
     signup_for_activity activity_name email session_id s =
       (inl (mkHTTPException 404 "Activity not found"), s))
  ∧ (∀ a, activities s !! activity_name = Some a → email ∈ participants a →
     signup_for_activity activity_name email session_id s =
       (inl (mkHTTPException 400 "Student is already signed up"), s))
  ∧ (∀ a, activities s !! activity_name = Some a → email ∉ participants a →
     ∃ s', signup_for_activity activity_name email session_id s =
             (inr (json (Message ("Signed up " +:+ email +:+ " for " +:+ activity_name))), s')
       ∧ activities s' !! activity_name =
           Some (with_participants a (participants a ++ [email])))
  ∧ (∀ a, activities s !! activity_name = Some a → email ∉ participants a →
     (max_participants a ≤ Z.of_nat (length (participants a)))%Z →
     ∃ r s' a', signup_for_activity activity_name email session_id s = (inr r, s')
       ∧ activities s' !! activity_name = Some a'
       ∧ (max_participants a' < Z.of_nat (length (participants a')))%Z).
Proof.
  intros [u Hauth]%require_auth_valid.
  rewrite (signup_for_activity_run _ _ _ _ _ Hauth).
  split_and!.
  - by intros ->.
  - intros a -> Hin. by rewrite bool_decide_eq_true_2.
  - intros a -> Hnot. rewrite bool_decide_eq_false_2 by done.
    eexists. split; [reflexivity |]. simpl. by rewrite lookup_insert_eq.
  - intros a -> Hnot Hfull. rewrite bool_decide_eq_false_2 by done.
    do 3 eexists. split_and!; [reflexivity | simpl; by rewrite lookup_insert_eq |].
    simpl. unfold append. rewrite length_app. simpl. lia.
Qed.

(** The Math Club holds 10 of 10 and still takes an eleventh student. *)
Lemma signup_for_activity_spec_witness :
  valid_session (sessions math_club_full) sample_cookie ∧
  ∃ r s' a',
    signup_for_activity "Math Club" "s9@mergington.edu" sample_cookie math_club_full
      = (inr r, s')
    ∧ activities s' !! "Math Club" = Some a'
    ∧ (max_participants a' < Z.of_nat (length (participants a')))%Z.
Proof.
  split; [sample_session |].
  eapply (signup_for_activity_spec math_club_full sample_cookie
            "Math Club" "s9@mergington.edu").
  - sample_session.
  - vm_compute. reflexivity.
  - compute_done.
  - vm_compute. discriminate.
Defined.

(** ** Unregister *)

(** C2. With a valid session, [unregister_from_activity] answers 404
    "Activity not found" when the name is not a key of the registry, else 400
    "Student is not signed up for this activity" when the email is not in the
    roster, and else succeeds and takes the email out of that roster: its
    first occurrence is cut out, the other entries keep their order, and on a
    roster without duplicates the email is no longer a member. *)
Theorem unregister_from_activity_spec (s : State) (session_id : option string)
    (activity_name email : string) :
  valid_session (sessions s) session_id →
  (activities s !! activity_name = None →
     unregister_from_activity activity_name email session_id s =
       (inl (mkHTTPException 404 "Activity not found"), s))
  ∧ (∀ a, activities s !! activity_name = Some a → email ∉ participants a →
     unregister_from_activity activity_name email session_id s =
       (inl (mkHTTPException 400 "Student is not signed up for this activity"), s))
  ∧ (∀ a, activities s !! activity_name = Some a → email ∈ participants a →
     ∃ s' (l1 l2 : list string),
       unregister_from_activity activity_name email session_id s =
         (inr (json (Message ("Unregistered " +:+ email +:+ " from " +:+ activity_name))), s')
       ∧ participants a = (l1 ++ email :: l2)%list ∧ (email ∉ l1)
       ∧ activities s' !! activity_name = Some (with_participants a (l1 ++ l2)%list)
       ∧ (NoDup (participants a) → email ∉ (l1 ++ l2)%list)).
Proof.
  intros [u Hauth]%require_auth_valid.
  rewrite (unregister_from_activity_run _ _ _ _ _ Hauth).
  split_and!.
  - by intros ->.
  - intros a -> Hnot. apply remove_None in Hnot. by rewrite Hnot.
  - intros a -> Hin. destruct (remove_elem_of _ _ Hin) as [l Hl]. rewrite Hl.
    destruct (proj1 (remove_Some _ _ _) Hl) as (l1 & l2 & Ha & Hx & ->).
    exists (mkState (sessions s)
              (<[activity_name := with_participants a (l1 ++ l2)%list]> (activities s))), l1, l2.
    split_and!; [done | done | done | simpl; by rewrite lookup_insert_eq |].
    intros Hnd. by apply (NoDup_remove _ _ _ Hnd Hl).
Qed.

(** Unregistering a seeded member of the Chess Club. *)
Lemma unregister_from_activity_spec_witness :
  valid_session (sessions logged_in) sample_cookie ∧
  ∃ s' (l1 l2 : list string),
    unregister_from_activity "Chess Club" "daniel@mergington.edu" sample_cookie logged_in =
      (inr (json (Message "Unregistered daniel@mergington.edu from Chess Club")), s')
    ∧ [ "michael@mergington.edu"; "daniel@mergington.edu" ]
        = (l1 ++ "daniel@mergington.edu" :: l2)%list
    ∧ ("daniel@mergington.edu" ∉ l1)
    ∧ activities s' !! "Chess Club" =
        Some (mkActivity "Learn strategies and compete in chess tournaments"
                "Fridays, 3:30 PM - 5:00 PM" 12 (l1 ++ l2)%list)
    ∧ (NoDup [ "michael@mergington.edu"; "daniel@mergington.edu" ] →
       "daniel@mergington.edu" ∉ (l1 ++ l2)%list).
Proof.
  split; [sample_session |].
  refine (proj2 (proj2 (unregister_from_activity_spec logged_in sample_cookie
            "Chess Club" "daniel@mergington.edu" _))
            (mkActivity "Learn strategies and compete in chess tournaments"
               "Fridays, 3:30 PM - 5:00 PM" 12
               [ "michael@mergington.edu"; "daniel@mergington.edu" ]) _ _).
  - sample_session.
  - vm_compute. reflexivity.
  - compute_done.
Defined.

(** ** Failed roster requests *)

(** The state a roster handler returns with an error is the state it was
    called in, and the error is one of the three it raises itself. *)
Lemma signup_for_activity_error (s s' : State) (session_id : option string)
    (activity_name email : string) (e : HTTPException) :
  signup_for_activity activity_name email session_id s = (inl e, s') →
  s' = s ∧ status_code e ∈ [401; 404; 400]%Z.
Proof.
  destruct (require_auth session_id s) as [[e0|u] s0] eqn:Hauth.
  - unfold signup_for_activity. run_handler. rewrite Hauth. intros [= <- <-].
    unfold require_auth in Hauth. revert Hauth. run_handler.
    rewrite get_current_user_run.
    repeat case_match; intros [= <- <-]; split; try done; simpl; set_solver.
  - assert (s0 = s) as ->.
    { unfold require_auth in Hauth. revert Hauth. run_handler.
      rewrite get_current_user_run. by repeat case_match; intros [= _ <-]. }
    rewrite (signup_for_activity_run _ _ _ _ _ Hauth).
    repeat case_match; intros [= <- <-]; split; try done; simpl; set_solver.
Qed.

Lemma unregister_from_activity_error (s s' : State) (session_id : option string)
    (activity_name email : string) (e : HTTPException) :
  unregister_from_activity activity_name email session_id s = (inl e, s') →
  s' = s ∧ status_code e ∈ [401; 404; 400]%Z.
Proof.
  destruct (require_auth session_id s) as [[e0|u] s0] eqn:Hauth.
  - unfold unregister_from_activity. run_handler. rewrite Hauth. intros [= <- <-].
    unfold require_auth in Hauth. revert Hauth. run_handler.
    rewrite get_current_user_run.
    repeat case_match; intros [= <- <-]; split; try done; simpl; set_solver.
  - assert (s0 = s) as ->.
    { unfold require_auth in Hauth. revert Hauth. run_handler.
      rewrite get_current_user_run. by repeat case_match; intros [= _ <-]. }
    rewrite (unregister_from_activity_run _ _ _ _ _ Hauth).
    repeat case_match; intros [= <- <-]; split; try done; simpl; set_solver.
Qed.

(** C4. Whenever [signup_for_activity] or [unregister_from_activity] returns
    an error, both registries are exactly as before the call, so the same
    request issued again returns the same error and again changes nothing.
    The error is a 401, 404 or 400. *)
Theorem roster_error_atomic (s s' : State) (session_id : option string)
    (activity_name email : string) (e : HTTPException) :
  (signup_for_activity activity_name email session_id s = (inl e, s') →
     s' = s
     ∧ signup_for_activity activity_name email session_id s' = (inl e, s')
     ∧ status_code e ∈ [401; 404; 400]%Z)
  ∧ (unregister_from_activity activity_name email session_id s = (inl e, s') →
     s' = s
     ∧ unregister_from_activity activity_name email session_id s' = (inl e, s')
     ∧ status_code e ∈ [401; 404; 400]%Z).
Proof.
  split; intros Herr.
  - destruct (signup_for_activity_error _ _ _ _ _ _ Herr) as [-> Hcode]. done.
  - destruct (unregister_from_activity_error _ _ _ _ _ _ Herr) as [-> Hcode]. done.
Qed.

(** A signup for an activity that does not exist, and an unregister of a
    student who is not enrolled. *)
Lemma roster_error_atomic_witness :
  (signup_for_activity "Juggling Club" "test@mergington.edu" sample_cookie logged_in =
     (inl (mkHTTPException 404 "Activity not found"), logged_in)
   ∧ logged_in = logged_in
   ∧ signup_for_activity "Juggling Club" "test@mergington.edu" sample_cookie logged_in =
       (inl (mkHTTPException 404 "Activity not found"), logged_in)
   ∧ 404%Z ∈ [401; 404; 400]%Z)
  ∧ (unregister_from_activity "Chess Club" "test@mergington.edu" sample_cookie logged_in =
       (inl (mkHTTPException 400 "Student is not signed up for this activity"), logged_in)
     ∧ logged_in = logged_in
     ∧ unregister_from_activity "Chess Club" "test@mergington.edu" sample_cookie logged_in =
         (inl (mkHTTPException 400 "Student is not signed up for this activity"), logged_in)
     ∧ 400%Z ∈ [401; 404; 400]%Z).
Proof.
  split; (split; [vm_compute; reflexivity |]).
  - apply (proj1 (roster_error_atomic logged_in logged_in sample_cookie
                    "Juggling Club" "test@mergington.edu"
                    (mkHTTPException 404 "Activity not found"))).
    vm_compute. reflexivity.
  - apply (proj2 (roster_error_atomic logged_in logged_in sample_cookie
                    "Chess Club" "test@mergington.edu"
                    (mkHTTPException 400 "Student is not signed up for this activity"))).
    vm_compute. reflexivity.
Defined.

(** ** Signup followed by unregister *)

(** C7. With a valid session, for an activity of the registry and an email
    that is not in its roster, the signup succeeds, the unregister that
    follows succeeds and gives back the state before the signup, and a second
    unregister is answered 400 "Student is not signed up for this activity". *)
Theorem signup_unregister_roundtrip (s : State) (session_id : option string)
    (activity_name email : string) (a : Activity) :
  valid_session (sessions s) session_id →
  activities s !! activity_name = Some a →
  email ∉ participants a →
  ∃ r1 s1 r2 s2,
    signup_for_activity activity_name email session_id s = (inr r1, s1)
    ∧ unregister_from_activity activity_name email session_id s1 = (inr r2, s2)
    ∧ s2 = s
    ∧ unregister_from_activity activity_name email session_id s2 =
        (inl (mkHTTPException 400 "Student is not signed up for this activity"), s2).
Proof.
  intros Hvalid Ha Hnot.
  destruct (require_auth_valid _ _ Hvalid) as [u Hauth].
  set (s1 := mkState (sessions s)
               (<[activity_name := with_participants a (append (participants a) email)]>
                  (activities s))).
  assert (valid_session (sessions s1) session_id) as Hvalid1 by done.
  destruct (require_auth_valid _ _ Hvalid1) as [u1 Hauth1].
  exists (json (Message ("Signed up " +:+ email +:+ " for " +:+ activity_name))), s1,
    (json (Message ("Unregistered " +:+ email +:+ " from " +:+ activity_name))), s.
  split_and!.
  - by rewrite (signup_for_activity_run _ _ _ _ _ Hauth), Ha, bool_decide_eq_false_2.
  - rewrite (unregister_from_activity_run _ _ _ _ _ Hauth1). simpl.
    rewrite lookup_insert_eq. simpl. rewrite remove_append by done.
    rewrite insert_insert_eq.
    replace (with_participants _ (participants a)) with a by (by destruct a).
    rewrite insert_id by done. by destruct s.
  - done.
  - rewrite (unregister_from_activity_run _ _ _ _ _ Hauth), Ha.
    apply remove_None in Hnot. by rewrite Hnot.
Qed.

(** The scenario of the specification: [test@mergington.edu] joins and leaves
    the Chess Club. *)
Lemma signup_unregister_roundtrip_witness :
  valid_session (sessions logged_in) sample_cookie
  ∧ ("test@mergington.edu" ∉
       [ "michael@mergington.edu"; "daniel@mergington.edu" ])
  ∧ ∃ r1 s1 r2 s2,
      signup_for_activity "Chess Club" "test@mergington.edu" sample_cookie logged_in
        = (inr r1, s1)
      ∧ unregister_from_activity "Chess Club" "test@mergington.edu" sample_cookie s1
          = (inr r2, s2)
      ∧ s2 = logged_in
      ∧ unregister_from_activity "Chess Club" "test@mergington.edu" sample_cookie s2 =
          (inl (mkHTTPException 400 "Student is not signed up for this activity"), s2).
Proof.
  split; [sample_session |]. split; [compute_done |].
  apply (signup_unregister_roundtrip logged_in sample_cookie
           "Chess Club" "test@mergington.edu"
           (mkActivity "Learn strategies and compete in chess tournaments"
              "Fridays, 3:30 PM - 5:00 PM" 12
              [ "michael@mergington.edu"; "daniel@mergington.edu" ])).
  - sample_session.
  - vm_compute. reflexivity.
  - compute_done.
Defined.

(** ** Successful roster requests *)

Lemma require_auth_state (s s0 : State) (session_id : option string)
    (x : HTTPException + string) :
  require_auth session_id s = (x, s0) → s0 = s.
Proof.
  unfold require_auth. run_handler. rewrite get_current_user_run.
  by repeat case_match; intros [= _ <-].
Qed.

(** A successful signup found the activity, did not find the email, and wrote
    back the record with the email appended. *)
Lemma signup_for_activity_success (s s' : State) (session_id : option string)
    (activity_name email : string) (r : Response) :
  signup_for_activity activity_name email session_id s = (inr r, s') →
  ∃ a, activities s !! activity_name = Some a ∧ (email ∉ participants a)
    ∧ s' = mkState (sessions s)
             (<[activity_name := with_participants a (append (participants a) email)]>
                (activities s)).
Proof.
  destruct (require_auth session_id s) as [[e0|u] s0] eqn:Hauth.
  - unfold signup_for_activity. run_handler. by rewrite Hauth.
  - pose proof (require_auth_state _ _ _ _ Hauth) as ->.
    rewrite (signup_for_activity_run _ _ _ _ _ Hauth).
    destruct (activities s !! activity_name) as [a|]; [| done].
    case_bool_decide; [done |]. intros [= _ <-]. eauto.
Qed.

(** A successful unregister found the activity and the email, and wrote back
    the record with the email removed. *)
Lemma unregister_from_activity_success (s s' : State) (session_id : option string)
    (activity_name email : string) (r : Response) :
  unregister_from_activity activity_name email session_id s = (inr r, s') →
  ∃ a l, activities s !! activity_name = Some a ∧ remove (participants a) email = Some l
    ∧ s' = mkState (sessions s) (<[activity_name := with_participants a l]> (activities s)).
Proof.
  destruct (require_auth session_id s) as [[e0|u] s0] eqn:Hauth.
  - unfold unregister_from_activity. run_handler. by rewrite Hauth.
  - pose proof (require_auth_state _ _ _ _ Hauth) as ->.
    rewrite (unregister_from_activity_run _ _ _ _ _ Hauth).
    destruct (activities s !! activity_name) as [a|]; [| done].
    destruct (remove (participants a) email) as [l|] eqn:Hl; [| done].
    intros [= _ <-]. eauto.
Qed.

(** C10. A successful signup or unregister for [activity_name] leaves the
    session registry, the record of every other activity, and the description,
    schedule and max_participants of the named activity as they were. *)
Theorem roster_mutation_frame (s s' : State) (session_id : option string)
    (activity_name email : string) (r : Response) :
  signup_for_activity activity_name email session_id s = (inr r, s')
  ∨ unregister_from_activity activity_name email session_id s = (inr r, s') →
  sessions s' = sessions s
  ∧ (∀ other, other ≠ activity_name → activities s' !! other = activities s !! other)
  ∧ ∃ a a', activities s !! activity_name = Some a
      ∧ activities s' !! activity_name = Some a'
      ∧ description a' = description a
      ∧ schedule a' = schedule a
      ∧ max_participants a' = max_participants a.
Proof.
  intros [(a & Ha & _ & ->)%signup_for_activity_success
         |(a & l & Ha & _ & ->)%unregister_from_activity_success]; simpl.
  all: split; [done |]; split;
    [ intros other Hne; by rewrite lookup_insert_ne
    | eexists a, _; rewrite lookup_insert_eq; done ].
Qed.

(** A signup and an unregister on the Chess Club. *)
Lemma roster_mutation_frame_witness :
  ∃ r s',
    signup_for_activity "Chess Club" "test@mergington.edu" sample_cookie logged_in
      = (inr r, s')
    ∧ sessions s' = sessions logged_in
    ∧ (∀ other, other ≠ "Chess Club" →
         activities s' !! other = activities logged_in !! other)
    ∧ ∃ a a', activities logged_in !! "Chess Club" = Some a
        ∧ activities s' !! "Chess Club" = Some a'
        ∧ description a' = description a
        ∧ schedule a' = schedule a
        ∧ max_participants a' = max_participants a.
Proof.
  do 2 eexists. split; [vm_compute; reflexivity |].
  eapply (roster_mutation_frame logged_in _ sample_cookie
            "Chess Club" "test@mergington.edu").
  left. vm_compute. reflexivity.
Defined.

(** ** The session handlers *)

Lemma auth_status_run (s : State) (session_id : option string) :
  auth_status session_id s =
    (inr (json match session_id with
               | Some sid =>
                   if truthy sid
                   then match sessions s !! sid with
                        | Some u => if truthy u then AuthStatus true (Some u)
                                    else AuthStatus false None
                        | None => AuthStatus false None
                        end
                   else AuthStatus false None
               | None => AuthStatus false None
               end), s).
Proof.
  unfold auth_status. run_handler. rewrite get_current_user_run.
  destruct session_id as [sid|]; [| done].
  destruct (truthy sid); [| done].
  destruct (sessions s !! sid) as [u|]; [| done].
  by destruct (truthy u).
Qed.

(** [logout] always answers 200; it deletes the entry of a non-empty token
    that is a key of the registry and otherwise changes nothing. *)
Lemma logout_run (s : State) (session_id : option string) :
  logout session_id s =
    (inr (mkResponse (Message "Logged out successfully") [delete_cookie "session_id"]),
     match session_id with
     | Some sid =>
         if truthy sid && bool_decide (is_Some (sessions s !! sid))
         then mkState (delete sid (sessions s)) (activities s)
         else s
     | None => s
     end).
Proof.
  unfold logout. run_handler.
  destruct session_id as [sid|]; [| done].
  by destruct (truthy sid && bool_decide (is_Some (sessions s !! sid))).
Qed.

Lemma get_activities_run (s : State) :
  get_activities s = (inr (json (ActivityMap (activities s))), s).
Proof. reflexivity. Qed.

Section CredentialFacts.

Variable teachers_data : list Teacher.
Variable checkpw : string → string → option bool.

Lemma login_run (s : State) (user password token : string) :
  login teachers_data checkpw user password token s =
    match find (λ t, bool_decide (username t = user)) teachers_data with
    | None => (inl (mkHTTPException 401 "Invalid credentials"), s)
    | Some teacher =>
        match checkpw password (password_hash teacher) with
        | Some true =>
            (inr (mkResponse (LoggedIn "Logged in successfully" user)
                    [set_cookie "session_id" token true 86400 "lax"]),
             mkState (<[token := user]> (sessions s)) (activities s))
        | Some false => (inl (mkHTTPException 401 "Invalid credentials"), s)
        | None => (inl (mkHTTPException 500 "Internal Server Error"), s)
        end
    end.
Proof.
  unfold login. destruct (find _ teachers_data) as [t|]; [| done].
  by destruct (checkpw password (password_hash t)) as [[|]|].
Qed.


(** It finds the first entry with the username otherwise. *)
Lemma find_stored_teacher (user : string) (t : Teacher) :
  stored_teacher teachers_data user t →
  find (λ t, bool_decide (username t = user)) teachers_data = Some t.
Proof.
  intros (before & after & -> & Ht & Hbefore).
  induction before as [|t' before IH]; simpl.
  - by rewrite bool_decide_eq_true_2.
  - rewrite bool_decide_eq_false_2 by (apply Hbefore; left).
    apply IH. intros t'' Ht''. apply Hbefore. by right.
Qed.



End CredentialFacts.



(** ** One step of the server *)

Section ServerFacts.

Variable teachers_data : list Teacher.
Variable checkpw : string → string → option bool.

(** Only the two roster handlers write the activity registry. *)
Lemma handle_activities (s : State) (req : Request) (session_id : option string) :
  match req with
  | POST_signup _ _ | DELETE_unregister _ _ => True
  | _ => activities (handle teachers_data checkpw req session_id s).2 = activities s
  end.
Proof.
  destruct req as [user password token| | | |name email|name email]; simpl; try done.
  - rewrite login_run. by repeat case_match.
  - rewrite logout_run. by repeat case_match.
  - by rewrite auth_status_run.
Qed.

(** Only [login] and [logout] write the session registry: a key of the
    registry after a request was a key before it or is the token of that
    login. *)
Lemma handle_sessions_key (s : State) (req : Request) (session_id : option string)
    (token : string) :
  is_Some (sessions (handle teachers_data checkpw req session_id s).2 !! token) →
  is_Some (sessions s !! token) ∨ ∃ user password, req = POST_login user password token.
Proof.
  destruct req as [user password token'| | | |name email|name email]; simpl.
  - rewrite login_run. repeat case_match; simpl; eauto.
    rewrite lookup_insert. case_decide; subst; eauto.
  - rewrite logout_run. repeat case_match; simpl; eauto.
    rewrite lookup_delete. case_decide; [by intros [? ?] | eauto].
  - rewrite auth_status_run. eauto.
  - eauto.
  - destruct (signup_for_activity name email session_id s) as [[e|r] s'] eqn:E; simpl.
    + apply signup_for_activity_error in E as [-> _]. eauto.
    + apply signup_for_activity_success in E as (a & _ & _ & ->). eauto.
  - destruct (unregister_from_activity name email session_id s) as [[e|r] s'] eqn:E; simpl.
    + apply unregister_from_activity_error in E as [-> _]. eauto.
    + apply unregister_from_activity_success in E as (a & l & _ & _ & ->). eauto.
Qed.

(** Every handler keeps the rosters free of duplicates. *)
Lemma handle_no_duplicates (s : State) (req : Request) (session_id : option string) :
  no_duplicates s → no_duplicates (handle teachers_data checkpw req session_id s).2.
Proof.
  intros Hs.
  pose proof (handle_activities s req session_id) as Hact.
  destruct req as [user password token| | | |name email|name email];
    try (intros n a; rewrite Hact; apply Hs).
  - simpl. destruct (signup_for_activity name email session_id s) as [[e|r] s'] eqn:E; simpl.
    + by apply signup_for_activity_error in E as [-> _].
    + apply signup_for_activity_success in E as (a & Ha & Hnot & ->).
      intros n a'. simpl. rewrite lookup_insert. case_decide.
      * intros [= <-]. simpl. apply NoDup_append; [by eapply Hs | done].
      * apply Hs.
  - simpl. destruct (unregister_from_activity name email session_id s) as [[e|r] s'] eqn:E; simpl.
    + by apply unregister_from_activity_error in E as [-> _].
    + apply unregister_from_activity_success in E as (a & l & Ha & Hl & ->).
      intros n a'. simpl. rewrite lookup_insert. case_decide.
      * intros [= <-]. simpl. eapply NoDup_remove; [by eapply Hs | done].
      * apply Hs.
Qed.

Lemma run_no_duplicates (trace : list (Request * option string)) (s : State) :
  no_duplicates s → no_duplicates (run teachers_data checkpw trace s).
Proof.
  revert s. induction trace as [|[req session_id] trace IH]; intros s Hs; [done |].
  simpl. by apply IH, handle_no_duplicates.
Qed.

(** A key of the session registry after a trace was a key before it or was
    issued by a login of the trace. *)
Lemma run_sessions_key (trace : list (Request * option string)) (s : State)
    (token : string) :
  is_Some (sessions (run teachers_data checkpw trace s) !! token) →
  is_Some (sessions s !! token) ∨ issued token trace.
Proof.
  revert s. induction trace as [|[req session_id] trace IH]; intros s; [by left |].
  simpl. intros [Hk | (u & p & c & Hin)]%IH.
  - apply handle_sessions_key in Hk as [Hk | (u & p & ->)]; [by left |].
    right. exists u, p, session_id. left.
  - right. exists u, p, c. by right.
Qed.

End ServerFacts.

Lemma initial_state_no_duplicates : no_duplicates initial_state.
Proof.
  intros name a Ha. apply elem_of_list_to_map_2 in Ha.
  assert (Forall (λ entry, NoDup (participants entry.2)) seed_activities) as Hall
    by (repeat constructor; compute_done).
  by apply (proj1 (Forall_forall _ _) Hall (name, a)).
Qed.

(** The session registry starts empty. *)
Lemma initial_state_sessions (token : string) : sessions initial_state !! token = None.
Proof. apply lookup_empty. Qed.

(** ** Reachable states *)

(** C9. In the state reached from the seeded registries by any sequence of
    requests (login, logout, status, listing, signup, unregister, each with
    any cookie), no roster contains an email twice. *)
Theorem participants_no_duplicates (teachers_data : list Teacher)
    (checkpw : string → string → option bool) (trace : list (Request * option string))
    (name : string) (a : Activity) :
  activities (run teachers_data checkpw trace initial_state) !! name = Some a →
  NoDup (participants a).
Proof.
  apply (run_no_duplicates teachers_data checkpw trace initial_state).
  apply initial_state_no_duplicates.
Qed.

(** After a login, a signup and a repeated signup, the Chess Club lists the
    new student once. *)
Lemma participants_no_duplicates_witness :
  ∃ a,
    activities
      (run sample_teachers sample_checkpw
         [ (POST_login "mrodriguez" "art123" sample_token, None);
           (POST_signup "Chess Club" "test@mergington.edu", sample_cookie);
           (POST_signup "Chess Club" "test@mergington.edu", sample_cookie) ]
         initial_state) !! "Chess Club" = Some a
    ∧ participants a =
        [ "michael@mergington.edu"; "daniel@mergington.edu"; "test@mergington.edu" ]
    ∧ NoDup (participants a).
Proof.
  eexists. split; [vm_compute; reflexivity |]. split; [reflexivity |].
  eapply (participants_no_duplicates sample_teachers sample_checkpw
            [ (POST_login "mrodriguez" "art123" sample_token, None);
              (POST_signup "Chess Club" "test@mergington.edu", sample_cookie);
              (POST_signup "Chess Club" "test@mergington.edu", sample_cookie) ]
            "Chess Club").
  vm_compute. reflexivity.
Defined.

(** In a state reached with drawn tokens, the empty string is not a key of
    the session registry. *)
Lemma run_sessions_empty_token (teachers_data : list Teacher)
    (checkpw : string → string → option bool) (trace : list (Request * option string)) :
  well_formed_trace trace →
  sessions (run teachers_data checkpw trace initial_state) !! "" = None.
Proof.
  intros Hwf. apply eq_None_not_Some.
  intros [Hk | (u & p & c & Hin)]%run_sessions_key.
  - rewrite initial_state_sessions in Hk. by destruct Hk.
  - apply (proj1 (Forall_forall _ _) Hwf) in Hin. simpl in Hin. discriminate.
Qed.

(** ** Requests without a session *)

(** C3. A signup or unregister request whose cookie is absent, or whose token
    is not a key of the session registry, is answered 401 "Authentication
    required", and both registries are left as they were. No request of any
    kind sent with such a cookie changes the activity registry. *)
Theorem unauthenticated_request_rejected (s : State) (session_id : option string)
    (activity_name email : string) :
  no_session (sessions s) session_id →
  signup_for_activity activity_name email session_id s =
    (inl (mkHTTPException 401 "Authentication required"), s)
  ∧ unregister_from_activity activity_name email session_id s =
      (inl (mkHTTPException 401 "Authentication required"), s)
  ∧ ∀ teachers_data checkpw req,
      activities (handle teachers_data checkpw req session_id s).2 = activities s.
Proof.
  intros Hno%no_session_not_valid.
  destruct (roster_handlers_unauthenticated s session_id activity_name email Hno)
    as [Hsignup Hunregister].
  split_and!; [done | done |].
  intros teachers_data checkpw req.
  pose proof (handle_activities teachers_data checkpw s req session_id) as Hact.
  destruct req as [user password token| | | |name email'|name email']; try done; simpl.
  - by rewrite (proj1 (roster_handlers_unauthenticated s session_id name email' Hno)).
  - by rewrite (proj2 (roster_handlers_unauthenticated s session_id name email' Hno)).
Qed.

(** A token that was never issued, presented to the state with one session. *)
Lemma unauthenticated_request_rejected_witness :
  no_session (sessions logged_in) (Some "forged")
  ∧ signup_for_activity "Chess Club" "test@mergington.edu" (Some "forged") logged_in =
      (inl (mkHTTPException 401 "Authentication required"), logged_in)
  ∧ unregister_from_activity "Chess Club" "daniel@mergington.edu" (Some "forged") logged_in =
      (inl (mkHTTPException 401 "Authentication required"), logged_in).
Proof.
  split.
  - right. exists "forged". split; reflexivity.
  - split.
    + apply (unauthenticated_request_rejected logged_in (Some "forged")
               "Chess Club" "test@mergington.edu").
      right. exists "forged". split; reflexivity.
    + apply (unauthenticated_request_rejected logged_in (Some "forged")
               "Chess Club" "daniel@mergington.edu").
      right. exists "forged". split; reflexivity.
Defined.

(** ** Which routes need a session *)

(** C5, as stated, fails: [get_activities] has no [require_auth] dependency.
    With no cookie at all, on the seeded state, there is no valid session and
    the listing is still answered with the whole registry; the route is not a
    protected one. *)
Lemma get_activities_without_session :
  ¬ valid_session (sessions initial_state) None
  ∧ handle sample_teachers sample_checkpw GET_activities None initial_state =
      (inr (json (ActivityMap (list_to_map seed_activities))), initial_state)
  ∧ ¬ requires_session (handle sample_teachers sample_checkpw GET_activities).
Proof.
  assert (¬ valid_session (sessions initial_state) None) as Hno
    by (intros (sid & u & Heq & _); discriminate).
  split_and!; [done | reflexivity |].
  intros Hreq. destruct (Hreq initial_state None Hno) as (e & Herr & _).
  discriminate.
Qed.

(** C5, amended. The two roster handlers are protected: without a valid
    session they answer 401 and change nothing. [get_activities] is public:
    for every state and every cookie, valid or not, it answers with the whole
    activity registry, every key with its record, and changes nothing. *)
Theorem activity_routes_sessions (teachers_data : list Teacher)
    (checkpw : string → string → option bool) (s : State) (session_id : option string)
    (activity_name email : string) :
  handle teachers_data checkpw GET_activities session_id s =
    (inr (json (ActivityMap (activities s))), s)
  ∧ requires_session (signup_for_activity activity_name email)
  ∧ requires_session (unregister_from_activity activity_name email).
Proof.
  split; [reflexivity |].
  split; intros s0 c Hno;
    exists (mkHTTPException 401 "Authentication required");
    (split; [by apply roster_handlers_unauthenticated | reflexivity]).
Qed.

(** ** Resolving and destroying sessions *)

(** C8. In a state reached from the seeded registries with drawn tokens:
    [get_current_user] returns a value and never an error, and the value is
    none exactly when the cookie is absent or its token is not a key of the
    session registry; for a token that no login of the trace issued it is
    none, and so it is for the token of the cookie after [logout]; in all
    these cases [auth_status] reports [authenticated = false]. [logout]
    always answers 200: it deletes the entry of the token when there is one
    and changes nothing otherwise, and never touches the activity registry. *)
Theorem session_resolution (teachers_data : list Teacher)
    (checkpw : string → string → option bool) (trace : list (Request * option string))
    (s : State) :
  well_formed_trace trace →
  s = run teachers_data checkpw trace initial_state →
  (∀ session_id, ∃ r,
      get_current_user session_id s = (inr r, s)
      ∧ (r = None ↔ no_session (sessions s) session_id)
      ∧ (r = None →
         auth_status session_id s = (inr (json (AuthStatus false None)), s)))
  ∧ (∀ token, ¬ issued token trace →
      get_current_user (Some token) s = (inr None, s)
      ∧ auth_status (Some token) s = (inr (json (AuthStatus false None)), s))
  ∧ (∀ session_id, ∃ s',
      logout session_id s =
        (inr (mkResponse (Message "Logged out successfully") [delete_cookie "session_id"]),
         s')
      ∧ activities s' = activities s
      ∧ sessions s' = match session_id with
                      | Some sid => delete sid (sessions s)
                      | None => sessions s
                      end
      ∧ (no_session (sessions s) session_id → s' = s)
      ∧ get_current_user session_id s' = (inr None, s')
      ∧ auth_status session_id s' = (inr (json (AuthStatus false None)), s')).
Proof.
  intros Hwf Hs.
  assert (sessions s !! "" = None) as Hempty
    by (subst s; by apply run_sessions_empty_token).
  assert (∀ token, ¬ issued token trace → sessions s !! token = None) as Hfresh.
  { intros token Hnot. apply eq_None_not_Some. subst s.
    intros [Hk | Hk]%run_sessions_key; [| done].
    rewrite initial_state_sessions in Hk. by destruct Hk. }
  clear Hs Hwf. split_and!.
  - intros session_id. eexists. split; [apply get_current_user_run |].
    rewrite auth_status_run. destruct session_id as [sid|].
    + destruct (truthy sid) eqn:Hsid.
      * split.
        -- split; [intros Hr; right; eauto |].
           intros [? | (sid' & [= <-] & Hr)]; done.
        -- by intros ->.
      * apply truthy_false in Hsid as ->. split; [| done].
        split; [intros _; right; eauto | done].
    + split; [| done]. split; [by left | done].
  - intros token Hnot%Hfresh.
    rewrite get_current_user_run, auth_status_run, Hnot.
    by destruct (truthy token).
  - intros session_id. eexists. split; [apply logout_run |].
    rewrite get_current_user_run, auth_status_run.
    destruct session_id as [sid|]; [| done].
    destruct (truthy sid) eqn:Hsid; simpl.
    + case_bool_decide as Hk; simpl.
      * rewrite lookup_delete_eq. split_and!; try done.
        intros [? | (sid' & [= <-] & Hr)]; [done |].
        rewrite Hr in Hk. by destruct Hk.
      * apply eq_None_not_Some in Hk. rewrite Hk, delete_id by done. done.
    + apply truthy_false in Hsid as ->. by rewrite delete_id.
Qed.

(** One teacher logs in: a token nobody was given does not resolve, and the
    teacher's own token stops resolving after logout. *)
Lemma session_resolution_witness :
  well_formed_trace [ (POST_login "mrodriguez" "art123" sample_token, None) ]
  ∧ (get_current_user (Some "forged") logged_in = (inr None, logged_in)
     ∧ auth_status (Some "forged") logged_in =
         (inr (json (AuthStatus false None)), logged_in))
  ∧ ∃ s',
      logout sample_cookie logged_in =
        (inr (mkResponse (Message "Logged out successfully") [delete_cookie "session_id"]),
         s')
      ∧ activities s' = activities logged_in
      ∧ sessions s' = delete sample_token (sessions logged_in)
      ∧ (no_session (sessions logged_in) sample_cookie → s' = logged_in)
      ∧ get_current_user sample_cookie s' = (inr None, s')
      ∧ auth_status sample_cookie s' = (inr (json (AuthStatus false None)), s').
Proof.
  assert (well_formed_trace [ (POST_login "mrodriguez" "art123" sample_token, None) ])
    as Hwf by (repeat constructor).
  split; [exact Hwf |].
  destruct (session_resolution sample_teachers sample_checkpw
              [ (POST_login "mrodriguez" "art123" sample_token, None) ]
              logged_in Hwf eq_refl) as (_ & Hfresh & Hlogout).
  split.
  - apply Hfresh. intros (u & p & c & Hin).
    apply list_elem_of_singleton in Hin. discriminate.
  - apply (Hlogout sample_cookie).
Defined.

(** * Further properties of the handlers *)

(** ** Login *)

(** What the generator expression of [login] returns is the first entry with
    the username. *)
Lemma find_stored_teacher_inv (teachers_data : list Teacher) (user : string) (t : Teacher) :
  find (λ t, bool_decide (username t = user)) teachers_data = Some t →
  stored_teacher teachers_data user t.
Proof.
  induction teachers_data as [|t0 l IH]; simpl; [done |].
  case_bool_decide as Hu.
  - intros [= <-]. exists [], l. split_and!; [done | done |].
    intros t' Ht'. by apply elem_of_nil in Ht'.
  - intros (before & after & -> & Ht & Hb)%IH.
    exists (t0 :: before), after. split_and!; [done | done |].
    intros t' [-> | Ht']%elem_of_cons; [done | by apply Hb].
Qed.

Lemma login_valid_run (teachers_data : list Teacher) (checkpw : string → string → option bool)
    (s : State) (user password token : string) :
  valid_credentials teachers_data checkpw user password →
  login teachers_data checkpw user password token s =
    (inr (mkResponse (LoggedIn "Logged in successfully" user)
            [set_cookie "session_id" token true 86400 "lax"]),
     mkState (<[token := user]> (sessions s)) (activities s)).
Proof.
  intros (t & Ht & Hpw). by rewrite login_run, (find_stored_teacher _ _ _ Ht), Hpw.
Qed.

Lemma login_invalid_state (teachers_data : list Teacher)
    (checkpw : string → string → option bool) (s : State) (user password token : string) :
  ¬ valid_credentials teachers_data checkpw user password →
  (login teachers_data checkpw user password token s).2 = s.
Proof.
  intros Hno. rewrite login_run.
  destruct (find _ teachers_data) as [t|] eqn:Hfind; [| done].
  destruct (checkpw password (password_hash t)) as [[|]|] eqn:Hpw; [| done | done].
  exfalso. apply Hno. exists t. split; [by apply find_stored_teacher_inv | done].
Qed.



(** X2. A login that is answered 200 presented valid credentials: the
    username is that of an entry of the store and the password verifies
    against the hash of the first such entry. *)
Theorem login_success_only_valid (teachers_data : list Teacher)
    (checkpw : string → string → option bool) (s s' : State) (user password token : string)
    (r : Response) :
  login teachers_data checkpw user password token s = (inr r, s') →
  valid_credentials teachers_data checkpw user password.
Proof.
  rewrite login_run.
  destruct (find _ teachers_data) as [t|] eqn:Hfind; [| done].
  destruct (checkpw password (password_hash t)) as [[|]|] eqn:Hpw; [| done | done].
  intros _. exists t. split; [by apply find_stored_teacher_inv | done].
Qed.

Lemma login_success_only_valid_witness :
  ∃ r s',
    login sample_teachers sample_checkpw "mrodriguez" "art123" sample_token initial_state =
      (inr r, s')
    ∧ valid_credentials sample_teachers sample_checkpw "mrodriguez" "art123".
Proof.
  do 2 eexists. split; [vm_compute; reflexivity |].
  eapply (login_success_only_valid sample_teachers sample_checkpw initial_state _
            "mrodriguez" "art123" sample_token).
  vm_compute. reflexivity.
Defined.

(** X3. Entries of the store after the first one with a given username are
    never consulted: the login answers as if that first entry were the whole
    store. *)
Theorem login_first_entry_only (teachers_data : list Teacher)
    (checkpw : string → string → option bool) (s : State) (user password token : string)
    (t : Teacher) :
  stored_teacher teachers_data user t →
  login teachers_data checkpw user password token s =
    login [t] checkpw user password token s.
Proof.
  intros Ht. rewrite !login_run, (find_stored_teacher _ _ _ Ht). simpl.
  destruct Ht as (_ & _ & _ & Hu & _). by rewrite bool_decide_eq_true_2.
Qed.

(** A second entry for the same username, with a hash the password verifies
    against, does not let the login through. *)
Lemma login_first_entry_only_witness :
  stored_teacher [ mkTeacher "mrodriguez" "old"; mkTeacher "mrodriguez" "new" ]
    "mrodriguez" (mkTeacher "mrodriguez" "old")
  ∧ login [ mkTeacher "mrodriguez" "old"; mkTeacher "mrodriguez" "new" ]
      (λ password hash, Some (String.eqb hash "new")) "mrodriguez" "art123" sample_token
      initial_state =
    login [ mkTeacher "mrodriguez" "old" ]
      (λ password hash, Some (String.eqb hash "new")) "mrodriguez" "art123" sample_token
      initial_state.
Proof.
  assert (stored_teacher [ mkTeacher "mrodriguez" "old"; mkTeacher "mrodriguez" "new" ]
            "mrodriguez" (mkTeacher "mrodriguez" "old")) as Hst.
  { exists [], [ mkTeacher "mrodriguez" "new" ]. split_and!; [reflexivity | reflexivity |].
    intros t' Ht'. by apply elem_of_nil in Ht'. }
  split; [exact Hst |].
  exact (login_first_entry_only _ _ initial_state "mrodriguez" "art123" sample_token _ Hst).
Defined.

(** ** Logout and status *)

(** After [logout] the cookie it was sent with names no session. *)
Lemma logout_not_valid (s : State) (session_id : option string) :
  ¬ valid_session (sessions (logout session_id s).2) session_id.
Proof.
  rewrite logout_run. intros (sid & u & -> & Hsid%truthy_true & Hu & _). simpl in Hu.
  rewrite Hsid in Hu. simpl in Hu. case_bool_decide as Hk; simpl in Hu.
  - by rewrite lookup_delete_eq in Hu.
  - apply Hk. eauto.
Qed.

(** X4. A login with a fresh non-empty token followed by a logout with that
    token gives back the state before the login. *)
Theorem login_logout_roundtrip (teachers_data : list Teacher)
    (checkpw : string → string → option bool) (s : State) (user password token : string) :
  valid_credentials teachers_data checkpw user password →
  token ≠ "" →
  sessions s !! token = None →
  ∃ r1 s1 r2,
    login teachers_data checkpw user password token s = (inr r1, s1)
    ∧ logout (Some token) s1 = (inr r2, s).
Proof.
  intros Hvalid Htok%truthy_true Hfresh. do 3 eexists.
  split; [by apply login_valid_run |].
  rewrite logout_run. simpl. rewrite Htok, lookup_insert_eq. simpl.
  rewrite delete_insert_eq, delete_id by done. by destruct s.
Qed.

Lemma login_logout_roundtrip_witness :
  valid_credentials sample_teachers sample_checkpw "mrodriguez" "art123"
  ∧ sample_token ≠ ""
  ∧ sessions initial_state !! sample_token = None
  ∧ ∃ r1 s1 r2,
      login sample_teachers sample_checkpw "mrodriguez" "art123" sample_token initial_state
        = (inr r1, s1)
      ∧ logout (Some sample_token) s1 = (inr r2, initial_state).
Proof.
  assert (valid_credentials sample_teachers sample_checkpw "mrodriguez" "art123") as Hv.
  { eexists. split; [| reflexivity]. exists [], []. split_and!; [reflexivity | reflexivity |].
    intros t' Ht'. by apply elem_of_nil in Ht'. }
  assert (sample_token ≠ "") as Hne by discriminate.
  split_and!; [exact Hv | exact Hne | reflexivity |].
  exact (login_logout_roundtrip sample_teachers sample_checkpw initial_state
           "mrodriguez" "art123" sample_token Hv Hne eq_refl).
Defined.

(** X5. Logout revokes the cookie it was sent with: in every state, after
    [logout] a signup or unregister with the same cookie is answered 401 and
    changes nothing. *)
Theorem logout_revokes_access (s : State) (session_id : option string)
    (activity_name email : string) :
  signup_for_activity activity_name email session_id (logout session_id s).2 =
    (inl (mkHTTPException 401 "Authentication required"), (logout session_id s).2)
  ∧ unregister_from_activity activity_name email session_id (logout session_id s).2 =
      (inl (mkHTTPException 401 "Authentication required"), (logout session_id s).2).
Proof.
  apply roster_handlers_unauthenticated, logout_not_valid.
Qed.

(** X6. Logout ends one session only: a cookie other than the one it was
    sent with names a valid session afterwards exactly when it did before. *)
Theorem logout_keeps_other_sessions (s : State) (session_id other : option string) :
  other ≠ session_id →
  valid_session (sessions (logout session_id s).2) other
  ↔ valid_session (sessions s) other.
Proof.
  intros Hne. rewrite logout_run. simpl.
  destruct session_id as [sid|]; [| done].
  destruct (truthy sid && bool_decide (is_Some (sessions s !! sid))); [| done].
  simpl. split; intros (sid' & u & -> & Hsid' & Hu & Hu'); exists sid', u.
  - rewrite lookup_delete_ne in Hu by congruence. done.
  - rewrite lookup_delete_ne by congruence. done.
Qed.

(** Of the two sessions of the teacher, the second survives the logout of
    the first. *)
Lemma logout_keeps_other_sessions_witness :
  Some second_token ≠ sample_cookie
  ∧ (valid_session (sessions (logout sample_cookie two_sessions).2) (Some second_token)
     ↔ valid_session (sessions two_sessions) (Some second_token)).
Proof.
  assert (Some second_token ≠ sample_cookie) as Hne by discriminate.
  split; [exact Hne |].
  exact (logout_keeps_other_sessions two_sessions sample_cookie (Some second_token) Hne).
Defined.

(** X7. A second logout with the same cookie changes nothing more. *)
Theorem logout_idempotent (s : State) (session_id : option string) :
  logout session_id (logout session_id s).2 =
    (inr (mkResponse (Message "Logged out successfully") [delete_cookie "session_id"]),
     (logout session_id s).2).
Proof.
  rewrite !logout_run. simpl. f_equal.
  destruct session_id as [sid|]; [| done].
  destruct (truthy sid); simpl; [| done].
  destruct (bool_decide (is_Some (sessions s !! sid))) eqn:Hk; simpl.
  - rewrite bool_decide_eq_false_2; [done |].
    rewrite lookup_delete_eq. by intros [? ?].
  - by rewrite Hk.
Qed.

(** X8. [auth_status] and [require_auth] agree, and neither changes the
    state: the status reports [authenticated = true] with username [u]
    exactly when [require_auth] returns [u], and [authenticated = false]
    exactly when [require_auth] raises its 401. In particular a session
    stored under the empty token or for the empty username is reported as
    not authenticated. *)
Theorem auth_status_agrees_with_require_auth (s : State) (session_id : option string) :
  (∀ u, auth_status session_id s = (inr (json (AuthStatus true (Some u))), s)
        ↔ require_auth session_id s = (inr u, s))
  ∧ (auth_status session_id s = (inr (json (AuthStatus false None)), s)
     ↔ require_auth session_id s =
         (inl (mkHTTPException 401 "Authentication required"), s)).
Proof.
  rewrite auth_status_run. unfold require_auth. run_handler.
  rewrite get_current_user_run.
  destruct session_id as [sid|]; [| by split; [intros u |]].
  destruct (truthy sid); [| by split; [intros u |]].
  destruct (sessions s !! sid) as [u0|]; [| by split; [intros u |]].
  destruct (truthy u0); split; try intros u; split; intros H; by simplify_eq.
Qed.

(** ** Composition of roster requests *)

(** X9. Signup is not idempotent on success: with a valid session, after a
    successful signup the same signup is answered 400 "Student is already
    signed up" and changes nothing, so the roster holds the email once. *)
Theorem signup_twice (s : State) (session_id : option string)
    (activity_name email : string) (a : Activity) :
  valid_session (sessions s) session_id →
  activities s !! activity_name = Some a →
  email ∉ participants a →
  ∃ r1 s1,
    signup_for_activity activity_name email session_id s = (inr r1, s1)
    ∧ signup_for_activity activity_name email session_id s1 =
        (inl (mkHTTPException 400 "Student is already signed up"), s1)
    ∧ activities s1 !! activity_name =
        Some (with_participants a (participants a ++ [email])).
Proof.
  intros Hvalid Ha Hnot.
  destruct (require_auth_valid _ _ Hvalid) as [u Hauth].
  set (s1 := mkState (sessions s)
               (<[activity_name := with_participants a (append (participants a) email)]>
                  (activities s))).
  assert (valid_session (sessions s1) session_id) as Hvalid1 by done.
  destruct (require_auth_valid _ _ Hvalid1) as [u1 Hauth1].
  exists (json (Message ("Signed up " +:+ email +:+ " for " +:+ activity_name))), s1.
  split_and!.
  - by rewrite (signup_for_activity_run _ _ _ _ _ Hauth), Ha, bool_decide_eq_false_2.
  - rewrite (signup_for_activity_run _ _ _ _ _ Hauth1). simpl.
    rewrite lookup_insert_eq. simpl. rewrite bool_decide_eq_true_2; [done |].
    unfold append. rewrite elem_of_app. right. left.
  - simpl. by rewrite lookup_insert_eq.
Qed.

Lemma signup_twice_witness :
  valid_session (sessions logged_in) sample_cookie
  ∧ ("test@mergington.edu" ∉ [ "michael@mergington.edu"; "daniel@mergington.edu" ])
  ∧ ∃ r1 s1,
      signup_for_activity "Chess Club" "test@mergington.edu" sample_cookie logged_in
        = (inr r1, s1)
      ∧ signup_for_activity "Chess Club" "test@mergington.edu" sample_cookie s1 =
          (inl (mkHTTPException 400 "Student is already signed up"), s1)
      ∧ activities s1 !! "Chess Club" =
          Some (mkActivity "Learn strategies and compete in chess tournaments"
                  "Fridays, 3:30 PM - 5:00 PM" 12
                  [ "michael@mergington.edu"; "daniel@mergington.edu";
                    "test@mergington.edu" ]).
Proof.
  split; [sample_session |]. split; [compute_done |].
  apply (signup_twice logged_in sample_cookie "Chess Club" "test@mergington.edu"
           (mkActivity "Learn strategies and compete in chess tournaments"
              "Fridays, 3:30 PM - 5:00 PM" 12
              [ "michael@mergington.edu"; "daniel@mergington.edu" ])).
  - sample_session.
  - vm_compute. reflexivity.
  - compute_done.
Defined.

(** X10. Unregister followed by signup is not a round trip: with a valid
    session, for a student of a duplicate-free roster, both calls succeed and
    the student ends up at the end of the roster, the others keeping their
    order. The roster is a permutation of the original one, and the state is
    the original one exactly when the student was already last. *)
Theorem unregister_signup_moves_last (s : State) (session_id : option string)
    (activity_name email : string) (a : Activity) :
  valid_session (sessions s) session_id →
  activities s !! activity_name = Some a →
  NoDup (participants a) →
  email ∈ participants a →
  ∃ r1 s1 r2 s2 (l1 l2 : list string),
    participants a = (l1 ++ email :: l2)%list
    ∧ unregister_from_activity activity_name email session_id s = (inr r1, s1)
    ∧ signup_for_activity activity_name email session_id s1 = (inr r2, s2)
    ∧ activities s2 !! activity_name =
        Some (with_participants a (l1 ++ l2 ++ [email])%list)
    ∧ (l1 ++ l2 ++ [email])%list ≡ₚ participants a
    ∧ (s2 = s ↔ l2 = []).
Proof.
  intros Hvalid Ha Hnd Hin.
  destruct (require_auth_valid _ _ Hvalid) as [u Hauth].
  destruct (remove_elem_of _ _ Hin) as [l Hl].
  destruct (NoDup_remove _ _ _ Hnd Hl) as [_ Hnot].
  destruct (proj1 (remove_Some _ _ _) Hl) as (l1 & l2 & Hpa & _ & ->).
  set (s1 := mkState (sessions s)
               (<[activity_name := with_participants a (l1 ++ l2)%list]> (activities s))).
  assert (valid_session (sessions s1) session_id) as Hvalid1 by done.
  destruct (require_auth_valid _ _ Hvalid1) as [u1 Hauth1].
  assert (signup_for_activity activity_name email session_id s1 =
            (inr (json (Message ("Signed up " +:+ email +:+ " for " +:+ activity_name))),
             mkState (sessions s)
               (<[activity_name := with_participants a (l1 ++ l2 ++ [email])%list]>
                  (activities s)))) as Hsignup.
  { rewrite (signup_for_activity_run _ _ _ _ _ Hauth1). simpl.
    rewrite lookup_insert_eq. simpl. rewrite bool_decide_eq_false_2 by done.
    unfold append, with_participants. simpl.
    by rewrite insert_insert_eq, <- app_assoc. }
  do 4 eexists. exists l1, l2. split_and!.
  - done.
  - by rewrite (unregister_from_activity_run _ _ _ _ _ Hauth), Ha, Hl.
  - exact Hsignup.
  - simpl. by rewrite lookup_insert_eq.
  - rewrite Hpa. apply Permutation_app_head. symmetry. apply Permutation_cons_append.
  - split.
    + intros Heq. apply (f_equal (λ st, participants <$> activities st !! activity_name)) in Heq.
      simpl in Heq. rewrite lookup_insert_eq, Ha in Heq. simpl in Heq.
      injection Heq as Heq. rewrite Hpa in Heq.
      apply app_inv_head in Heq.
      destruct l2 as [|x l2]; [done |]. simpl in Heq. injection Heq as -> _.
      exfalso. apply Hnot. rewrite elem_of_app. right. left.
    + intros ->. rewrite app_nil_l. rewrite app_nil_r in *.
      replace (with_participants a (l1 ++ [email])%list) with a
        by (destruct a; simpl in *; by subst).
      rewrite insert_id by done. by destruct s.
Qed.

(** The first student of the Chess Club leaves and joins again. *)
Lemma unregister_signup_moves_last_witness :
  valid_session (sessions logged_in) sample_cookie
  ∧ NoDup [ "michael@mergington.edu"; "daniel@mergington.edu" ]
  ∧ ("michael@mergington.edu" ∈ [ "michael@mergington.edu"; "daniel@mergington.edu" ])
  ∧ ∃ r1 s1 r2 s2 (l1 l2 : list string),
      [ "michael@mergington.edu"; "daniel@mergington.edu" ]
        = (l1 ++ "michael@mergington.edu" :: l2)%list
      ∧ unregister_from_activity "Chess Club" "michael@mergington.edu" sample_cookie logged_in
          = (inr r1, s1)
      ∧ signup_for_activity "Chess Club" "michael@mergington.edu" sample_cookie s1
          = (inr r2, s2)
      ∧ activities s2 !! "Chess Club" =
          Some (mkActivity "Learn strategies and compete in chess tournaments"
                  "Fridays, 3:30 PM - 5:00 PM" 12
                  (l1 ++ l2 ++ [ "michael@mergington.edu" ])%list)
      ∧ (l1 ++ l2 ++ [ "michael@mergington.edu" ])%list
          ≡ₚ [ "michael@mergington.edu"; "daniel@mergington.edu" ]
      ∧ (s2 = logged_in ↔ l2 = []).
Proof.
  split; [sample_session |]. split; [compute_done |]. split; [compute_done |].
  apply (unregister_signup_moves_last logged_in sample_cookie
           "Chess Club" "michael@mergington.edu"
           (mkActivity "Learn strategies and compete in chess tournaments"
              "Fridays, 3:30 PM - 5:00 PM" 12
              [ "michael@mergington.edu"; "daniel@mergington.edu" ])).
  - sample_session.
  - vm_compute. reflexivity.
  - compute_done.
  - compute_done.
Defined.

(** X11. A successful signup or unregister of one email leaves the other
    students of that roster alone: the roster without that email is the same
    list, in the same order, before and after, so every other email is a
    member afterwards exactly when it was before. *)
Theorem roster_mutation_keeps_others (s s' : State) (session_id : option string)
    (activity_name email : string) (r : Response) :
  signup_for_activity activity_name email session_id s = (inr r, s')
  ∨ unregister_from_activity activity_name email session_id s = (inr r, s') →
  ∃ a a', activities s !! activity_name = Some a
    ∧ activities s' !! activity_name = Some a'
    ∧ filter (λ x, x ≠ email) (participants a')
        = filter (λ x, x ≠ email) (participants a)
    ∧ ∀ other, other ≠ email → other ∈ participants a' ↔ other ∈ participants a.
Proof.
  intros Hok.
  assert (∃ a a', activities s !! activity_name = Some a
            ∧ activities s' !! activity_name = Some a'
            ∧ filter (λ x, x ≠ email) (participants a')
                = filter (λ x, x ≠ email) (participants a)) as (a & a' & Ha & Ha' & Hf).
  { destruct Hok as [(a & Ha & _ & ->)%signup_for_activity_success
                    |(a & l & Ha & Hl & ->)%unregister_from_activity_success].
    - exists a, (with_participants a (append (participants a) email)).
      split_and!; [done | simpl; by rewrite lookup_insert_eq |]. simpl.
      unfold append. rewrite filter_app, filter_cons_False by (by intros ?).
      by rewrite filter_nil, app_nil_r.
    - exists a, (with_participants a l).
      split_and!; [done | simpl; by rewrite lookup_insert_eq |]. simpl.
      apply remove_Some in Hl as (l1 & l2 & -> & _ & ->).
      rewrite !filter_app. f_equal. by rewrite filter_cons_False by (by intros ?). }
  exists a, a'. split_and!; [done | done | done |].
  intros other Hne. split; intros Hin.
  - assert (other ∈ filter (λ x, x ≠ email) (participants a')) as Hfin
      by (by apply list_elem_of_filter).
    rewrite Hf in Hfin. by apply list_elem_of_filter in Hfin as [_ ?].
  - assert (other ∈ filter (λ x, x ≠ email) (participants a)) as Hfin
      by (by apply list_elem_of_filter).
    rewrite <- Hf in Hfin. by apply list_elem_of_filter in Hfin as [_ ?].
Qed.

Lemma roster_mutation_keeps_others_witness :
  ∃ r s',
    unregister_from_activity "Chess Club" "michael@mergington.edu" sample_cookie logged_in
      = (inr r, s')
    ∧ ∃ a a', activities logged_in !! "Chess Club" = Some a
        ∧ activities s' !! "Chess Club" = Some a'
        ∧ filter (λ x, x ≠ "michael@mergington.edu") (participants a')
            = filter (λ x, x ≠ "michael@mergington.edu") (participants a)
        ∧ ∀ other, other ≠ "michael@mergington.edu" →
            other ∈ participants a' ↔ other ∈ participants a.
Proof.
  do 2 eexists. split; [vm_compute; reflexivity |].
  eapply (roster_mutation_keeps_others logged_in _ sample_cookie
            "Chess Club" "michael@mergington.edu").
  right. vm_compute. reflexivity.
Defined.

(** X12. The roster handlers do not look at who is logged in: with any two
    valid sessions, of the same teacher or not, the answer and the resulting
    state are the same. *)
Theorem roster_handlers_any_teacher (s : State) (session_id session_id' : option string)
    (activity_name email : string) :
  valid_session (sessions s) session_id →
  valid_session (sessions s) session_id' →
  signup_for_activity activity_name email session_id s =
    signup_for_activity activity_name email session_id' s
  ∧ unregister_from_activity activity_name email session_id s =
      unregister_from_activity activity_name email session_id' s.
Proof.
  intros [u Hauth]%require_auth_valid [u' Hauth']%require_auth_valid.
  by rewrite (signup_for_activity_run _ _ _ _ _ Hauth),
    (signup_for_activity_run _ _ _ _ _ Hauth'),
    (unregister_from_activity_run _ _ _ _ _ Hauth),
    (unregister_from_activity_run _ _ _ _ _ Hauth').
Qed.

Lemma roster_handlers_any_teacher_witness :
  valid_session (sessions two_sessions) sample_cookie
  ∧ valid_session (sessions two_sessions) (Some second_token)
  ∧ signup_for_activity "Chess Club" "test@mergington.edu" sample_cookie two_sessions =
      signup_for_activity "Chess Club" "test@mergington.edu" (Some second_token) two_sessions
  ∧ unregister_from_activity "Chess Club" "test@mergington.edu" sample_cookie two_sessions =
      unregister_from_activity "Chess Club" "test@mergington.edu" (Some second_token)
        two_sessions.
Proof.
  assert (valid_session (sessions two_sessions) sample_cookie) as H1 by sample_session.
  assert (valid_session (sessions two_sessions) (Some second_token)) as H2.
  { exists second_token, "mrodriguez".
    split_and!; [reflexivity | discriminate | reflexivity | discriminate]. }
  split; [exact H1 |]. split; [exact H2 |].
  exact (roster_handlers_any_teacher two_sessions sample_cookie (Some second_token)
           "Chess Club" "test@mergington.edu" H1 H2).
Defined.

(** A roster request reads the session registry and the record of its own
    activity, and writes at most that record. *)
Lemma roster_request_shape (teachers_data : list Teacher)
    (checkpw : string → string → option bool) (req : Request) (session_id : option string)
    (name : string) :
  roster_activity req = Some name →
  ∃ f : gmap string string → option Activity → (HTTPException + Response) * option Activity,
    ∀ s, handle teachers_data checkpw req session_id s =
      ((f (sessions s) (activities s !! name)).1,
       match (f (sessions s) (activities s !! name)).2 with
       | Some a' => mkState (sessions s) (<[name := a']> (activities s))
       | None => s
       end).
Proof.
  destruct req as [| | | |n email|n email]; try done; intros [= ->]; simpl.
  - exists (λ sess oa,
      match session_id with
      | Some sid =>
          if truthy sid && match sess !! sid with Some u => truthy u | None => false end
          then match oa with
               | None => (inl (mkHTTPException 404 "Activity not found"), None)
               | Some a =>
                   if bool_decide (email ∈ participants a)
                   then (inl (mkHTTPException 400 "Student is already signed up"), None)
                   else (inr (json (Message ("Signed up " +:+ email +:+ " for " +:+ name))),
                         Some (with_participants a (append (participants a) email)))
               end
          else (inl (mkHTTPException 401 "Authentication required"), None)
      | None => (inl (mkHTTPException 401 "Authentication required"), None)
      end).
    intros s. unfold signup_for_activity, require_auth. run_handler.
    rewrite get_current_user_run.
    destruct session_id as [sid|]; [| done].
    destruct (truthy sid); [| done]. simpl.
    destruct (sessions s !! sid) as [u|]; [| done].
    destruct (truthy u); [| done].
    destruct (activities s !! name) as [a|]; [| done].
    by destruct (bool_decide (email ∈ participants a)).
  - exists (λ sess oa,
      match session_id with
      | Some sid =>
          if truthy sid && match sess !! sid with Some u => truthy u | None => false end
          then match oa with
               | None => (inl (mkHTTPException 404 "Activity not found"), None)
               | Some a =>
                   match remove (participants a) email with
                   | None =>
                       (inl (mkHTTPException 400 "Student is not signed up for this activity"),
                        None)
                   | Some l =>
                       (inr (json (Message ("Unregistered " +:+ email +:+ " from " +:+ name))),
                        Some (with_participants a l))
                   end
               end
          else (inl (mkHTTPException 401 "Authentication required"), None)
      | None => (inl (mkHTTPException 401 "Authentication required"), None)
      end).
    intros s. unfold unregister_from_activity, require_auth. run_handler.
    rewrite get_current_user_run.
    destruct session_id as [sid|]; [| done].
    destruct (truthy sid); [| done]. simpl.
    destruct (sessions s !! sid) as [u|]; [| done].
    destruct (truthy u); [| done].
    destruct (activities s !! name) as [a|]; [| done].
    case_bool_decide as Hin; simpl.
    + by destruct (remove_elem_of _ _ Hin) as [l ->].
    + apply remove_None in Hin. by rewrite Hin.
Qed.

(** X13. Roster requests about different activities commute: whatever the
    cookies, and whether they succeed or fail, each gets the same answer in
    either order and the final state is the same. *)
Theorem roster_requests_commute (teachers_data : list Teacher)
    (checkpw : string → string → option bool) (s : State) (req1 req2 : Request)
    (session_id1 session_id2 : option string) (name1 name2 : string) :
  roster_activity req1 = Some name1 →
  roster_activity req2 = Some name2 →
  name1 ≠ name2 →
  (handle teachers_data checkpw req1 session_id1
     (handle teachers_data checkpw req2 session_id2 s).2).1
    = (handle teachers_data checkpw req1 session_id1 s).1
  ∧ (handle teachers_data checkpw req2 session_id2
       (handle teachers_data checkpw req1 session_id1 s).2).1
      = (handle teachers_data checkpw req2 session_id2 s).1
  ∧ (handle teachers_data checkpw req2 session_id2
       (handle teachers_data checkpw req1 session_id1 s).2).2
      = (handle teachers_data checkpw req1 session_id1
           (handle teachers_data checkpw req2 session_id2 s).2).2.
Proof.
  intros [f1 H1]%(roster_request_shape teachers_data checkpw _ session_id1)
         [f2 H2]%(roster_request_shape teachers_data checkpw _ session_id2) Hne.
  rewrite !H1, !H2. simpl.
  destruct (f1 (sessions s) (activities s !! name1)) as [r1 [a1|]] eqn:E1;
    destruct (f2 (sessions s) (activities s !! name2)) as [r2 [a2|]] eqn:E2; simpl;
    rewrite ?lookup_insert_ne by done; rewrite ?E1, ?E2; simpl;
    split_and!; try done.
  by rewrite insert_insert_ne.
Qed.

Lemma roster_requests_commute_witness :
  roster_activity (POST_signup "Chess Club" "test@mergington.edu") = Some "Chess Club"
  ∧ roster_activity (DELETE_unregister "Math Club" "james@mergington.edu") = Some "Math Club"
  ∧ "Chess Club" ≠ "Math Club"
  ∧ (handle sample_teachers sample_checkpw
       (DELETE_unregister "Math Club" "james@mergington.edu") sample_cookie
       (handle sample_teachers sample_checkpw
          (POST_signup "Chess Club" "test@mergington.edu") sample_cookie logged_in).2).2
    = (handle sample_teachers sample_checkpw
         (POST_signup "Chess Club" "test@mergington.edu") sample_cookie
         (handle sample_teachers sample_checkpw
            (DELETE_unregister "Math Club" "james@mergington.edu") sample_cookie
            logged_in).2).2.
Proof.
  assert ("Chess Club" ≠ "Math Club") as Hne by discriminate.
  split_and!; [reflexivity | reflexivity | exact Hne |].
  exact (proj2 (proj2 (roster_requests_commute sample_teachers sample_checkpw logged_in
                         (POST_signup "Chess Club" "test@mergington.edu")
                         (DELETE_unregister "Math Club" "james@mergington.edu")
                         sample_cookie sample_cookie "Chess Club" "Math Club"
                         eq_refl eq_refl Hne))).
Defined.

(** ** Invariants along a trace *)

Lemma catalogue_insert (s : State) (name : string) (a : Activity) (l : list string) :
  activities s !! name = Some a →
  catalogue (mkState (sessions s) (<[name := with_participants a l]> (activities s)))
    = catalogue s.
Proof.
  intros Ha. unfold catalogue. simpl. rewrite fmap_insert. simpl.
  apply insert_id. by rewrite lookup_fmap, Ha.
Qed.

Lemma handle_catalogue (teachers_data : list Teacher) (checkpw : string → string → option bool)
    (s : State) (req : Request) (session_id : option string) :
  catalogue (handle teachers_data checkpw req session_id s).2 = catalogue s.
Proof.
  pose proof (handle_activities teachers_data checkpw s req session_id) as Hact.
  destruct req as [user password token| | | |name email|name email];
    try (unfold catalogue; by rewrite Hact); simpl.
  - destruct (signup_for_activity name email session_id s) as [[e|r] s'] eqn:E; simpl.
    + by apply signup_for_activity_error in E as [-> _].
    + apply signup_for_activity_success in E as (a & Ha & _ & ->).
      by apply catalogue_insert.
  - destruct (unregister_from_activity name email session_id s) as [[e|r] s'] eqn:E; simpl.
    + by apply unregister_from_activity_error in E as [-> _].
    + apply unregister_from_activity_success in E as (a & l & Ha & _ & ->).
      by apply catalogue_insert.
Qed.

(** X14. No sequence of requests creates, deletes or renames an activity or
    changes a description, a schedule or a capacity: from any state, the
    keys of the activity registry and these three fields of every record are
    the same after any trace. Only rosters change. *)
Theorem catalogue_invariant (teachers_data : list Teacher)
    (checkpw : string → string → option bool) (trace : list (Request * option string))
    (s : State) :
  catalogue (run teachers_data checkpw trace s) = catalogue s
  ∧ dom (activities (run teachers_data checkpw trace s)) = dom (activities s).
Proof.
  assert (catalogue (run teachers_data checkpw trace s) = catalogue s) as Hcat.
  { revert s. induction trace as [|[req session_id] trace IH]; intros s; [done |].
    simpl. by rewrite IH, handle_catalogue. }
  split; [done |].
  apply (f_equal dom) in Hcat. unfold catalogue in Hcat. by rewrite !dom_fmap_L in Hcat.
Qed.

(** [logout] adds no session. *)
Lemma logout_valid_session (s : State) (session_id other : option string) :
  valid_session (sessions (logout session_id s).2) other → valid_session (sessions s) other.
Proof.
  rewrite logout_run. simpl.
  destruct session_id as [sid|]; [| done].
  destruct (truthy sid && bool_decide (is_Some (sessions s !! sid))); [| done].
  simpl. intros (sid' & u & -> & Hsid' & Hu & Hu'). exists sid', u.
  apply lookup_delete_Some in Hu as [_ Hu]. done.
Qed.

(** X15. Nothing can be changed without credentials that verify: from a
    state without a valid session, after any trace in which no login
    presents valid credentials, the activity registry is as it was and there
    is still no valid session. *)
Theorem rejected_logins_change_nothing (teachers_data : list Teacher)
    (checkpw : string → string → option bool) (trace : list (Request * option string))
    (s : State) :
  (∀ session_id, ¬ valid_session (sessions s) session_id) →
  logins_rejected teachers_data checkpw trace →
  activities (run teachers_data checkpw trace s) = activities s
  ∧ ∀ session_id, ¬ valid_session (sessions (run teachers_data checkpw trace s)) session_id.
Proof.
  revert s. induction trace as [|[req c] trace IH]; intros s Hno Hrej; [done |].
  simpl.
  assert (logins_rejected teachers_data checkpw trace) as Hrej'.
  { intros u p t c' Hin. apply (Hrej u p t c'). by right. }
  assert (activities (handle teachers_data checkpw req c s).2 = activities s
          ∧ ∀ c', ¬ valid_session (sessions (handle teachers_data checkpw req c s).2) c')
    as [Hact Hno'].
  { destruct req as [user password token| | | |name email|name email]; simpl.
    - rewrite login_invalid_state; [done |]. apply (Hrej user password token c). left.
    - split.
      + rewrite logout_run. simpl. by repeat case_match.
      + intros c' Hv%logout_valid_session. by apply (Hno c').
    - by rewrite auth_status_run.
    - done.
    - by rewrite (proj1 (roster_handlers_unauthenticated s c name email (Hno c))).
    - by rewrite (proj2 (roster_handlers_unauthenticated s c name email (Hno c))). }
  destruct (IH _ Hno' Hrej') as [IHact IHno]. split; [by rewrite IHact | done].
Qed.

(** Wrong passwords, forged cookies and logouts, on the seeded state. *)
Lemma rejected_logins_change_nothing_witness :
  (∀ session_id, ¬ valid_session (sessions initial_state) session_id)
  ∧ logins_rejected sample_teachers sample_checkpw
      [ (POST_login "mrodriguez" "guess" sample_token, None);
        (POST_signup "Chess Club" "test@mergington.edu", sample_cookie);
        (POST_logout, sample_cookie) ]
  ∧ activities
      (run sample_teachers sample_checkpw
         [ (POST_login "mrodriguez" "guess" sample_token, None);
           (POST_signup "Chess Club" "test@mergington.edu", sample_cookie);
           (POST_logout, sample_cookie) ] initial_state)
    = activities initial_state.
Proof.
  assert (∀ session_id, ¬ valid_session (sessions initial_state) session_id) as Hno.
  { intros c (sid & u & _ & _ & Hu & _). simpl in Hu. by rewrite lookup_empty in Hu. }
  assert (logins_rejected sample_teachers sample_checkpw
            [ (POST_login "mrodriguez" "guess" sample_token, None);
              (POST_signup "Chess Club" "test@mergington.edu", sample_cookie);
              (POST_logout, sample_cookie) ]) as Hrej.
  { intros u p t c Hin (tt & _ & Hpw).
    apply elem_of_cons in Hin as [Heq | Hin].
    - injection Heq as -> -> -> ->. discriminate.
    - apply elem_of_cons in Hin as [Heq | Hin]; [discriminate |].
      apply list_elem_of_singleton in Hin. discriminate. }
  split; [exact Hno |]. split; [exact Hrej |].
  exact (proj1 (rejected_logins_change_nothing sample_teachers sample_checkpw _
                  initial_state Hno Hrej)).
Defined.

(** An entry of the session registry after a request was there before it or
    was written by that request, a login with valid credentials. *)
Lemma handle_sessions_entry (teachers_data : list Teacher)
    (checkpw : string → string → option bool) (s : State) (req : Request)
    (session_id : option string) (token u : string) :
  sessions (handle teachers_data checkpw req session_id s).2 !! token = Some u →
  sessions s !! token = Some u
  ∨ ∃ password, req = POST_login u password token
      ∧ valid_credentials teachers_data checkpw u password.
Proof.
  destruct req as [user password token'| | | |name email|name email]; simpl.
  - rewrite login_run.
    destruct (find _ teachers_data) as [t|] eqn:Hfind; [| by left].
    destruct (checkpw password (password_hash t)) as [[|]|] eqn:Hpw;
      [| by left | by left].
    simpl. rewrite lookup_insert. case_decide as Heq; [| by left].
    intros [= <-]. subst. right. exists password. split; [done |].
    exists t. split; [by apply find_stored_teacher_inv | done].
  - rewrite logout_run. repeat case_match; simpl; try by left.
    intros [_ Hu]%lookup_delete_Some. by left.
  - rewrite auth_status_run. by left.
  - by left.
  - destruct (signup_for_activity name email session_id s) as [[e|r] s'] eqn:E; simpl.
    + apply signup_for_activity_error in E as [-> _]. by left.
    + apply signup_for_activity_success in E as (a & _ & _ & ->). by left.
  - destruct (unregister_from_activity name email session_id s) as [[e|r] s'] eqn:E; simpl.
    + apply unregister_from_activity_error in E as [-> _]. by left.
    + apply unregister_from_activity_success in E as (a & l & _ & _ & ->). by left.
Qed.

Lemma run_sessions_entry (teachers_data : list Teacher)
    (checkpw : string → string → option bool) (trace : list (Request * option string))
    (s : State) (token u : string) :
  sessions (run teachers_data checkpw trace s) !! token = Some u →
  sessions s !! token = Some u
  ∨ ∃ password session_id, (POST_login u password token, session_id) ∈ trace
      ∧ valid_credentials teachers_data checkpw u password.
Proof.
  revert s. induction trace as [|[req c] trace IH]; intros s; [by left |].
  simpl. intros [Hk | (p & c' & Hin & Hv)]%IH.
  - apply handle_sessions_entry in Hk as [Hk | (p & -> & Hv)]; [by left |].
    right. exists p, c. split; [left | done].
  - right. exists p, c'. split; [by right | done].
Qed.

(** X16. Sessions are only ever held by teachers of the credential store: in
    a state reached from the seeded registries, every entry of the session
    registry was written by a login of the trace that carried that token and
    presented valid credentials for that username. *)
Theorem sessions_belong_to_teachers (teachers_data : list Teacher)
    (checkpw : string → string → option bool) (trace : list (Request * option string))
    (token u : string) :
  sessions (run teachers_data checkpw trace initial_state) !! token = Some u →
  ∃ password session_id,
    (POST_login u password token, session_id) ∈ trace
    ∧ valid_credentials teachers_data checkpw u password.
Proof.
  intros [Hk | Hlogin]%run_sessions_entry; [| done].
  by rewrite initial_state_sessions in Hk.
Qed.

Lemma sessions_belong_to_teachers_witness :
  sessions two_sessions !! second_token = Some "mrodriguez"
  ∧ ∃ (password : string) (session_id : option string),
      (POST_login "mrodriguez" password second_token, session_id)
        ∈ [ (POST_login "mrodriguez" "art123" sample_token, None);
            (POST_login "mrodriguez" "art123" second_token, None) ]
      ∧ valid_credentials sample_teachers sample_checkpw "mrodriguez" password.
Proof.
  split; [reflexivity |].
  apply (sessions_belong_to_teachers sample_teachers sample_checkpw
           [ (POST_login "mrodriguez" "art123" sample_token, None);
             (POST_login "mrodriguez" "art123" second_token, None) ]
           second_token "mrodriguez").
  reflexivity.
Defined.

(** The status is "not authenticated" exactly when [require_auth] raises. *)
Lemma auth_status_false_iff (s : State) (session_id : option string) :
  auth_status session_id s = (inr (json (AuthStatus false None)), s)
  ↔ require_auth session_id s = (inl (mkHTTPException 401 "Authentication required"), s).
Proof.
  rewrite auth_status_run. unfold require_auth. run_handler.
  rewrite get_current_user_run.
  destruct session_id as [sid|]; [| done].
  destruct (truthy sid); [| done].
  destruct (sessions s !! sid) as [u0|]; [| done].
  destruct (truthy u0); split; intros H; by simplify_eq.
Qed.

(** X17. When no entry of the credential store has an empty username, in a
    state reached from the seeded registries with drawn tokens every entry
    of the session registry is a valid session: [auth_status] reports
    [authenticated = false] exactly when the cookie is absent or its token is
    not a key of the registry, and [require_auth] raises exactly then. *)
Theorem status_false_only_without_session (teachers_data : list Teacher)
    (checkpw : string → string → option bool) (trace : list (Request * option string))
    (session_id : option string) :
  well_formed_trace trace →
  (∀ t, t ∈ teachers_data → username t ≠ "") →
  (auth_status session_id (run teachers_data checkpw trace initial_state) =
     (inr (json (AuthStatus false None)), run teachers_data checkpw trace initial_state)
   ↔ no_session (sessions (run teachers_data checkpw trace initial_state)) session_id)
  ∧ (valid_session (sessions (run teachers_data checkpw trace initial_state)) session_id
     ↔ ¬ no_session (sessions (run teachers_data checkpw trace initial_state)) session_id).
Proof.
  intros Hwf Hnames.
  set (s := run teachers_data checkpw trace initial_state).
  assert (∀ token u, sessions s !! token = Some u → token ≠ "" ∧ u ≠ "") as Hentry.
  { intros token u Hu. split.
    - intros ->. pose proof (run_sessions_empty_token teachers_data checkpw trace Hwf).
      unfold s in Hu. congruence.
    - apply run_sessions_entry in Hu as [Hu | (p & c & _ & t & Ht & _)].
      + by rewrite initial_state_sessions in Hu.
      + destruct Ht as (before & after & -> & <- & _). apply Hnames.
        rewrite elem_of_app. right. left. }
  assert (valid_session (sessions s) session_id ↔ ¬ no_session (sessions s) session_id)
    as Hvalid.
  { split.
    - intros (sid & u & -> & _ & Hu & _) [? | (sid' & [= <-] & Hn)]; congruence.
    - intros Hno. destruct session_id as [sid|]; [| exfalso; apply Hno; by left].
      destruct (sessions s !! sid) as [u|] eqn:Hu.
      + destruct (Hentry _ _ Hu). by exists sid, u.
      + exfalso. apply Hno. right. eauto. }
  split; [| done].
  rewrite (auth_status_false_iff s session_id).
  split.
  - intros Hfail. destruct session_id as [sid|]; [| by left].
    destruct (sessions s !! sid) as [u|] eqn:Hu; [| right; eauto].
    destruct (Hentry _ _ Hu) as [Hsid Hne].
    destruct (require_auth_valid s (Some sid)) as [u' Hok]; [by exists sid, u |].
    congruence.
  - intros Hno. by apply require_auth_invalid, no_session_not_valid.
Qed.

Lemma status_false_only_without_session_witness :
  well_formed_trace [ (POST_login "mrodriguez" "art123" sample_token, None) ]
  ∧ (∀ t, t ∈ sample_teachers → username t ≠ "")
  ∧ (auth_status (Some "forged") logged_in =
       (inr (json (AuthStatus false None)), logged_in)
     ↔ no_session (sessions logged_in) (Some "forged"))
  ∧ (valid_session (sessions logged_in) (Some "forged")
     ↔ ¬ no_session (sessions logged_in) (Some "forged")).
Proof.
  assert (well_formed_trace [ (POST_login "mrodriguez" "art123" sample_token, None) ])
    as Hwf by (repeat constructor).
  assert (∀ t, t ∈ sample_teachers → username t ≠ "") as Hnames.
  { intros t Ht. apply list_elem_of_singleton in Ht as ->. discriminate. }
  split; [exact Hwf |]. split; [exact Hnames |].
  exact (status_false_only_without_session sample_teachers sample_checkpw
           [ (POST_login "mrodriguez" "art123" sample_token, None) ]
           (Some "forged") Hwf Hnames).
Defined.
